(** * pylibjtag: the Python binding of the JTAG boundary-scan library

    A shallow embedding of [pylibjtag/jtagcore.py] (class [JTAGCore]).
    The binding loads a native library and forwards every method to one or
    more of its exported functions.  The native library is a black box here:
    it is a deterministic machine over an arbitrary state type that answers
    each call with a return code and the content of the out-buffers it was
    handed.  A method of the class is a computation that threads the library
    state, may raise a Python exception, and records the calls it issued. *)

From Stdlib Require Import ZArith String List Bool Lia.
From stdpp Require Import gmap strings list.

Local Open Scope Z_scope.

(** ** Python values *)

(** The dynamically typed arguments the binding compares with [==] or
    tests with [isinstance].  A [str] is represented by its UTF-8 bytes, so
    that [s.encode("utf-8")] keeps the representation and only changes the
    tag. *)
Inductive PyVal : Type :=
| PyNone
| PyBool (b : bool)
| PyInt (n : Z)
| PyStr (s : string)
| PyBytes (b : string).

(** [bool] is a subclass of [int]: [True == 1] and [False == 0]. *)
Definition py_int_of (v : PyVal) : option Z :=
  match v with
  | PyBool true => Some 1
  | PyBool false => Some 0
  | PyInt n => Some n
  | _ => None
  end.

(** Python's [==] on the values above. *)
Definition py_eq (a b : PyVal) : bool :=
  match py_int_of a, py_int_of b with
  | Some x, Some y => x =? y
  | _, _ =>
      match a, b with
      | PyNone, PyNone => true
      | PyStr s, PyStr t => String.eqb s t
      | PyBytes s, PyBytes t => String.eqb s t
      | _, _ => false
      end
  end.

(** A pin is named by its numeric id or by a [str]
    ([isinstance(pinid, str)]). *)
Inductive PinRef : Type :=
| PinNum (n : Z)
| PinName (s : string).

(** A pin name handed to [pin_get_id]: a [str] or already [bytes]. *)
Inductive PyText : Type :=
| Str (s : string)
| Bytes (b : string).

(** ** Exceptions *)

Inductive PyExn : Type :=
| IOError (args : list PyVal)
| ValueError (args : list PyVal)
| KeyError (key : Z).

Inductive Result (A : Type) : Type :=
| Ok (a : A)
| Raise (e : PyExn).
Arguments Ok {A} a.
Arguments Raise {A} e.

(** ** The native library *)

(** One constructor per exported function the binding calls, with the
    arguments the binding passes (the context handle [self._jtag] is left
    out).  [jtagcore_set_scan_mode] receives whatever Python value the
    caller gave as mode. *)
Inductive LibCall : Type :=
| jtagcore_get_number_of_probes_drv
| jtagcore_get_number_of_probes (probe_driver_id : Z)
| jtagcore_get_probe_name (probeid : Z)
| jtagcore_select_and_open_probe (probeid : Z)
| jtagcore_scan_and_init_chain
| jtagcore_get_number_of_devices
| jtagcore_get_dev_id (device_number : Z)
| jtagcore_loadbsdlfile (cpath : string) (device_number : Z)
| jtagcore_get_bsdl_id (cpath : string)
| jtagcore_get_number_of_pins (device_number : Z)
| jtagcore_get_pin_id (device_number : Z) (pinname : string)
| jtagcore_get_pin_state (device_number pinid pintype : Z)
| jtagcore_get_pin_properties (device_number pinid maxsize : Z)
| jtagcore_set_pin_state (device pinid pintype value : Z)
| jtagcore_set_scan_mode (device_number : Z) (mode : PyVal)
| jtagcore_push_and_pop_chain (mode : Z).

(** What comes back from a call: the C return value, the bytes left in the
    string buffer that was passed ([buf.value]) and the integer left in the
    [c_int] passed by reference ([pt.value]). *)
Record LibRet : Type := mkRet {
  rv : Z;
  buf_value : string;
  pt_value : Z
}.

Definition ret_code (n : Z) : LibRet := mkRet n EmptyString 0.

Definition Trace : Type := list (LibCall * LibRet).

(** ** Class constants *)

Definition error_codes (code : Z) : option string :=
  match code with
  | 0 => Some "JTAG_CORE_NO_ERROR"%string
  | -1 => Some "JTAG_CORE_BAD_PARAMETER"%string
  | -2 => Some "JTAG_CORE_ACCESS_ERROR"%string
  | -3 => Some "JTAG_CORE_IO_ERROR"%string
  | -4 => Some "JTAG_CORE_MEM_ERROR"%string
  | -5 => Some "JTAG_CORE_NO_PROBE"%string
  | -6 => Some "JTAG_CORE_NOT_FOUND"%string
  | -7 => Some "JTAG_CORE_CMD_NOT_FOUND"%string
  | -8 => Some "JTAG_CORE_INTERNAL_ERROR"%string
  | -9 => Some "JTAG_CORE_BAD_CMD"%string
  | -10 => Some "JTAG_CORE_I2C_BUS_NOTFREE"%string
  | _ => None
  end.

Definition INPUT : Z := 1.
Definition OUTPUT : Z := 2.
Definition TRISTATE : Z := 4.
Definition OE : Z := 4.

(** ** The methods of [JTAGCore] *)

Section Wrapper.

Context {LibState : Type}.
(** The loaded library. *)
Variable lib : LibState -> LibCall -> LibRet * LibState.
(** [os.path.exists]. *)
Variable path_exists : string -> bool.

(** A method body: from the library state to a result, the new library
    state and the calls issued, oldest first. *)
Definition M (A : Type) : Type := LibState -> Result A * LibState * Trace.

Definition ret {A} (a : A) : M A := fun s => (Ok a, s, []).

Definition raise {A} (e : PyExn) : M A := fun s => (Raise e, s, []).

Definition bind {A B} (m : M A) (k : A -> M B) : M B :=
  fun s =>
    match m s with
    | (Ok a, s1, t1) =>
        match k a s1 with
        | (r, s2, t2) => (r, s2, t1 ++ t2)
        end
    | (Raise e, s1, t1) => (Raise e, s1, t1)
    end.

(** [self.lib.f(self._jtag, ...)]. *)
Definition call (c : LibCall) : M LibRet :=
  fun s => match lib s c with (r, s') => (Ok r, s', [(c, r)]) end.

Notation "x <- m ;; k" := (bind m (fun x => k))
  (at level 100, m at next level, right associativity).
Notation "m ;;; k" := (bind m (fun _ => k))
  (at level 100, right associativity).

(** [for x in xs: acc = body(acc, x)], the loop variable state [acc]
    being passed along. *)
Fixpoint for_each {A B} (xs : list A) (acc : B) (body : B -> A -> M B) : M B :=
  match xs with
  | [] => ret acc
  | x :: xs' => acc' <- body acc x ;; for_each xs' acc' body
  end.

Definition _check_return (rv : Z) : M unit :=
  if rv >=? 0 then ret tt
  else if rv <? 0 then
    match error_codes rv with
    | Some name => raise (IOError [PyStr ("Exception: " +:+ name)])
    | None => raise (KeyError rv)
    end
  else ret tt.

Definition get_probe_names : M (gmap string Z) :=
  r <- call jtagcore_get_number_of_probes_drv ;;
  let probe_driver_ids := rv r in
  _check_return probe_driver_ids ;;;
  for_each (seqZ 0 probe_driver_ids) (∅ : gmap string Z)
    (fun probes probe_driver_id =>
       r <- call (jtagcore_get_number_of_probes probe_driver_id) ;;
       let probe_indexes := rv r in
       _check_return probe_indexes ;;;
       for_each (seqZ 0 probe_indexes) probes
         (fun probes probe_index =>
            let probeid := Z.lor (Z.shiftl probe_driver_id 8) probe_index in
            probename <- call (jtagcore_get_probe_name probeid) ;;
            ret (<[buf_value probename := probeid]> probes))).

Definition open_probe (probeid : Z) : M unit :=
  r <- call (jtagcore_select_and_open_probe probeid) ;;
  _check_return (rv r).

Definition scan_init_chain : M Z :=
  r <- call jtagcore_scan_and_init_chain ;;
  _check_return (rv r) ;;;
  ret (rv r).

Definition get_number_devices : M Z :=
  r <- call jtagcore_get_number_of_devices ;;
  _check_return (rv r) ;;;
  ret (rv r).

Definition get_devid (device_number : Z) : M Z :=
  r <- call (jtagcore_get_dev_id device_number) ;;
  _check_return (rv r) ;;;
  ret (rv r).

Definition bsdl_attach (filepath : string) (device_number : Z) : M unit :=
  if negb (path_exists filepath) then
    raise (IOError [PyStr ("Check path: " +:+ filepath); PyStr filepath])
  else
    (* c_char_p(filepath), after encoding when filepath is a str *)
    let cpath := filepath in
    r <- call (jtagcore_loadbsdlfile cpath device_number) ;;
    _check_return (rv r).

Definition bsdl_devid (filepath : string) : M Z :=
  if negb (path_exists filepath) then
    raise (IOError [PyStr ("Check path: " +:+ filepath); PyStr filepath])
  else
    let cpath := filepath in
    r <- call (jtagcore_get_bsdl_id cpath) ;;
    _check_return (rv r) ;;;
    ret (rv r).

Definition pins_get_number (device_number : Z) : M Z :=
  r <- call (jtagcore_get_number_of_pins device_number) ;;
  _check_return (rv r) ;;;
  ret (rv r).

Definition pin_get_id (device_number : Z) (pinname : PyText) : M Z :=
  let pinname := match pinname with Str s => s | Bytes b => b end in
  r <- call (jtagcore_get_pin_id device_number pinname) ;;
  _check_return (rv r) ;;;
  ret (rv r).

(** [if isinstance(pinid, str): pinid = self.pin_get_id(device, pinid)] *)
Definition resolve_pinid (device_number : Z) (pinid : PinRef) : M Z :=
  match pinid with
  | PinName s => pin_get_id device_number (Str s)
  | PinNum n => ret n
  end.

Definition pin_get_state (device_number : Z) (pinid : PinRef) (pintype : PyVal) : M Z :=
  pinid <- resolve_pinid device_number pinid ;;
  pintype <-
    (if py_eq pintype (PyStr "input") then ret INPUT
     else if py_eq pintype (PyStr "output") then ret OUTPUT
     else if py_eq pintype (PyStr "oe") then ret OE
     else raise (ValueError [PyStr "Invalid pintype"; pintype])) ;;
  r <- call (jtagcore_get_pin_state device_number pinid pintype) ;;
  _check_return (rv r) ;;;
  ret (rv r).

Definition pin_get_properties (device_number : Z) (pinid : PinRef)
  : M (string * list string) :=
  match pinid with
  | PinName _ => raise (ValueError [PyStr "pinid must be integer for thiscall"])
  | PinNum pinid =>
      r <- call (jtagcore_get_pin_properties device_number pinid 500) ;;
      _check_return (rv r) ;;;
      let pt := pt_value r in
      let pintype := [] in
      let pintype :=
        if Z.land pt INPUT =? 0 then pintype else pintype ++ ["input"%string] in
      let pintype :=
        if Z.land pt OUTPUT =? 0 then pintype else pintype ++ ["output"%string] in
      let pintype :=
        if Z.land pt OE =? 0 then pintype else pintype ++ ["oe"%string] in
      ret (buf_value r, pintype)
  end.

Definition scan (write_only : bool) : M unit :=
  let mode := if write_only then 1 else 0 in
  r <- call (jtagcore_push_and_pop_chain mode) ;;
  _check_return (rv r).

Definition pin_set_state (device : Z) (pinid : PinRef) (state : PyVal)
    (scan_now : bool) : M unit :=
  pinid <- resolve_pinid device pinid ;;
  (if py_eq state (PyBool true) || py_eq state (PyInt 1)
      || py_eq state (PyStr "high") then
     r <- call (jtagcore_set_pin_state device pinid OE 1) ;;
     _check_return (rv r) ;;;
     r <- call (jtagcore_set_pin_state device pinid OUTPUT 1) ;;
     _check_return (rv r)
   else if py_eq state (PyBool false) || py_eq state (PyInt 0)
           || py_eq state (PyStr "low") then
     r <- call (jtagcore_set_pin_state device pinid OE 1) ;;
     _check_return (rv r) ;;;
     r <- call (jtagcore_set_pin_state device pinid OUTPUT 0) ;;
     _check_return (rv r)
   else if py_eq state PyNone || py_eq state (PyInt (-1))
           || py_eq state (PyStr "high-z") then
     r <- call (jtagcore_set_pin_state device pinid OE 0) ;;
     _check_return (rv r) ;;;
     r <- call (jtagcore_set_pin_state device pinid OUTPUT 0) ;;
     _check_return (rv r)
   else raise (ValueError [PyStr "Invalid state"; state])) ;;;
  if scan_now then scan false else ret tt.

Definition set_scan_mode (device_number : Z) (mode : PyVal) (scan_now : bool)
  : M unit :=
  let mode :=
    if py_eq mode (PyStr "passive") || py_eq mode (PyStr "sample") then PyInt 0
    else if py_eq mode (PyStr "active") || py_eq mode (PyStr "extest") then PyInt 1
    else mode in
  r <- call (jtagcore_set_scan_mode device_number mode) ;;
  _check_return (rv r) ;;;
  if scan_now then scan false else ret tt.

End Wrapper.

Arguments M LibState A : clear implicits.

(** ** Observations on a run *)

Definition result_of {S A} (run : Result A * S * Trace) : Result A := run.1.1.
Definition state_of {S A} (run : Result A * S * Trace) : S := run.1.2.
Definition trace_of {S A} (run : Result A * S * Trace) : Trace := run.2.

Definition calls (tr : Trace) : list LibCall := tr.*1.

(** The register writes among the calls of a run. *)
Definition is_register_write (c : LibCall) : bool :=
  match c with
  | jtagcore_set_pin_state _ _ _ _ => true
  | _ => false
  end.

Definition register_writes (tr : Trace) : list LibCall :=
  List.filter is_register_write (calls tr).

(** The instance counts the registry reported, per driver index. *)
Definition probe_counts (tr : Trace) : list (Z * Z) :=
  omap (fun e => match e.1 with
                 | jtagcore_get_number_of_probes d => Some (d, rv e.2)
                 | _ => None
                 end) tr.

(** The probe identifiers whose name was requested, and the name each got. *)
Definition assignments (tr : Trace) : list (string * Z) :=
  omap (fun e => match e.1 with
                 | jtagcore_get_probe_name probeid => Some (buf_value e.2, probeid)
                 | _ => None
                 end) tr.

Definition probe_queries (tr : Trace) : list Z := (assignments tr).*2.

(** The identifiers of all instances [0 .. n-1] of all drivers [d] of a
    list of [(d, n)], in enumeration order. *)
Definition composite_ids (counts : list (Z * Z)) : list Z :=
  flat_map (fun dn => (fun i => Z.lor (Z.shiftl dn.1 8) i) <$> seqZ 0 dn.2) counts.

(** The exception [_check_return] raises on a negative value. *)
Definition check_exn (code : Z) : PyExn :=
  match error_codes code with
  | Some name => IOError [PyStr ("Exception: " +:+ name)]
  | None => KeyError code
  end.

(** ** Error kinds *)

Inductive ErrorKind : Type :=
| BadParameter | AccessError | IoError | MemError | NoProbe | NotFound
| CmdNotFound | InternalError | BadCmd | BusNotFree.

Definition kind_of_code (code : Z) : option ErrorKind :=
  match code with
  | -1 => Some BadParameter
  | -2 => Some AccessError
  | -3 => Some IoError
  | -4 => Some MemError
  | -5 => Some NoProbe
  | -6 => Some NotFound
  | -7 => Some CmdNotFound
  | -8 => Some InternalError
  | -9 => Some BadCmd
  | -10 => Some BusNotFree
  | _ => None
  end.

(** The kind an exception of the binding stands for: an [IOError] made by
    [_check_return] names the library's code, any other [IOError] is an I/O
    failure of the binding's own, a [ValueError] is the binding's own
    rejection of an argument, and a [KeyError] names no kind. *)
Definition exn_kind (e : PyExn) : option ErrorKind :=
  match e with
  | IOError [PyStr msg] =>
      match List.find (fun c => String.eqb msg
                         ("Exception: " +:+ default EmptyString (error_codes c)))
              (seqZ (-10) 10) with
      | Some c => kind_of_code c
      | None => Some IoError
      end
  | IOError _ => Some IoError
  | ValueError _ => Some BadParameter
  | KeyError _ => None
  end.

(** ** Logical pin states and direction classes *)

Inductive LogicalState : Type := High | Low | HighZ.

(** The argument values [pin_set_state] takes for each logical state. *)
Definition logical_state (state : PyVal) : option LogicalState :=
  if py_eq state (PyBool true) || py_eq state (PyInt 1) || py_eq state (PyStr "high")
  then Some High
  else if py_eq state (PyBool false) || py_eq state (PyInt 0) || py_eq state (PyStr "low")
  then Some Low
  else if py_eq state PyNone || py_eq state (PyInt (-1)) || py_eq state (PyStr "high-z")
  then Some HighZ
  else None.

Definition oe_bit (l : LogicalState) : Z :=
  match l with High | Low => 1 | HighZ => 0 end.

Definition output_bit (l : LogicalState) : Z :=
  match l with High => 1 | Low | HighZ => 0 end.

Inductive Direction : Type := DirInput | DirOutput | DirOE.

Definition direction_name (d : Direction) : string :=
  match d with
  | DirInput => "input"
  | DirOutput => "output"
  | DirOE => "oe"
  end.

Definition direction_code (d : Direction) : Z :=
  match d with
  | DirInput => INPUT
  | DirOutput => OUTPUT
  | DirOE => OE
  end.


(** ** A library that replays a script *)

(** The library as the binding sees it in one run: the replies it gives,
    in order; once the script is used up every call answers 0. *)
Definition replay (script : list LibRet) (c : LibCall) : LibRet * list LibRet :=
  match script with
  | r :: script' => (r, script')
  | [] => (ret_code 0, [])
  end.

Definition no_files (path : string) : bool := false.

(** ** The native engine as the specification describes it *)

Module Engine.

(** Modelled from the spec: the PinDescriptor of the data model, a name
    and a capability set over input, output and output-enable kept as a
    bitmask; its numeric pin id is its position in the device's table
    (dense, zero-based per device).  The native library that holds it is
    not part of the Python sources. *)
Record PinDescriptor : Type := mkPin {
  pin_name : string;
  pin_caps : Z
}.

(** Modelled from the spec: the ChainSession of the data model, as far as
    the pin accessors and the scan cycle of the native library (absent
    from the Python sources) need it: whether a probe session is open,
    whether the transport is faulty, the descriptor attached to each
    device number, the in-memory boundary-scan register image indexed by
    device, pin and direction class, and the levels the physical chain
    returns on the next capture. *)
Record ChainSession : Type := mkSession {
  session_open : bool;
  transport_fault : bool;
  descriptors : gmap Z (list PinDescriptor);
  image : gmap (Z * Z * Z) bool;
  chain_levels : gmap (Z * Z) bool
}.

Definition with_image (s : ChainSession) (img : gmap (Z * Z * Z) bool)
  : ChainSession :=
  mkSession (session_open s) (transport_fault s) (descriptors s) img
    (chain_levels s).

(** Modelled from the spec: the name lookup of the native descriptor
    store, absent from the Python sources; pin ids being table positions,
    it yields the first position, counted from [i], that carries [name]. *)
Fixpoint pin_index (name : string) (pins : list PinDescriptor) (i : Z) : option Z :=
  match pins with
  | [] => None
  | p :: pins' =>
      if String.eqb (pin_name p) name then Some i
      else pin_index name pins' (i + 1)
  end.

Definition pin_at (pins : list PinDescriptor) (pinid : Z) : option PinDescriptor :=
  if pinid <? 0 then None else pins !! Z.to_nat pinid.

Definition valid_direction (pintype : Z) : bool :=
  (pintype =? INPUT) || (pintype =? OUTPUT) || (pintype =? OE).

(** Modelled from the spec: [pinId(deviceNumber, name)] of the native
    library's descriptor store: the numeric id of the named pin, NotFound
    (-6) if the name is unknown, BadParameter (-1) if no descriptor is
    attached. *)
Definition get_pin_id (s : ChainSession) (device_number : Z) (name : string)
  : LibRet * ChainSession :=
  match descriptors s !! device_number with
  | None => (ret_code (-1), s)
  | Some pins =>
      match pin_index name pins 0 with
      | Some i => (ret_code i, s)
      | None => (ret_code (-6), s)
      end
  end.

(** Modelled from the spec: [pinProperties(deviceNumber, pinId)] of the
    native library's descriptor store: the name and the capability set of
    the pin, BadParameter (-1) if no descriptor is attached or the pin id
    is invalid.  The name is handed back whole in the string buffer the
    caller passed. *)
Definition get_pin_properties (s : ChainSession) (device_number pinid : Z)
  : LibRet * ChainSession :=
  match descriptors s !! device_number with
  | None => (ret_code (-1), s)
  | Some pins =>
      match pin_at pins pinid with
      | Some p => (mkRet 0 (pin_name p) (pin_caps p), s)
      | None => (ret_code (-1), s)
      end
  end.

Definition known_pin (s : ChainSession) (device_number pinid : Z) : bool :=
  match descriptors s !! device_number with
  | None => false
  | Some pins => bool_decide (is_Some (pin_at pins pinid))
  end.

(** Modelled from the spec: [getPinState] of the native library's
    boundary-scan engine: the bit the in-memory register image holds for
    the pin and direction, BadParameter (-1) for an invalid pin id or
    direction. *)
Definition get_pin_state (s : ChainSession) (device_number pinid pintype : Z)
  : LibRet * ChainSession :=
  if known_pin s device_number pinid && valid_direction pintype then
    (ret_code (if default false (image s !! (device_number, pinid, pintype))
               then 1 else 0), s)
  else (ret_code (-1), s).

(** Modelled from the spec: one underlying register write of the native
    library's boundary-scan engine: validated on its own (BadParameter
    for an invalid pin id or direction), then stored in the in-memory
    register image. *)
Definition set_pin_state (s : ChainSession) (device pinid pintype value : Z)
  : LibRet * ChainSession :=
  if known_pin s device pinid && valid_direction pintype then
    (ret_code 0,
     with_image s (<[(device, pinid, pintype) := negb (value =? 0)]> (image s)))
  else (ret_code (-1), s).

(** Modelled from the spec: [scan(writeOnly)] of the native library's
    boundary-scan engine: NoProbe (-5) if no session is open and IoError
    (-3) on a transport fault, both without touching the register image;
    otherwise the vector is shifted out and, unless write-only, the
    returned levels are captured into the input image. *)
Definition push_and_pop_chain (s : ChainSession) (mode : Z)
  : LibRet * ChainSession :=
  if negb (session_open s) then (ret_code (-5), s)
  else if transport_fault s then (ret_code (-3), s)
  else if mode =? 0 then
    (ret_code 0,
     with_image s
       (map_fold (fun k level img => <[(k.1, k.2, INPUT) := level]> img)
          (image s) (chain_levels s)))
  else (ret_code 0, s).

(** Modelled from the spec: the native library (absent from the Python
    sources) behind the interface the binding calls, made of the entry
    points above; the entry points of the registry, the session and the
    chain scanner are not modelled and answer CmdNotFound (-7). *)
Definition step (s : ChainSession) (c : LibCall) : LibRet * ChainSession :=
  match c with
  | jtagcore_get_pin_id d name => get_pin_id s d name
  | jtagcore_get_pin_properties d p _ => get_pin_properties s d p
  | jtagcore_get_pin_state d p t => get_pin_state s d p t
  | jtagcore_set_pin_state d p t v => set_pin_state s d p t v
  | jtagcore_push_and_pop_chain mode => push_and_pop_chain s mode
  | _ => (ret_code (-7), s)
  end.

(** A session with device 1 described by three pins, and the same
    before any probe session is opened. *)
Definition demo_pins : list PinDescriptor :=
  [mkPin "PA9" 7; mkPin "PA11" 7; mkPin "NRST" 1].

Definition demo : ChainSession :=
  mkSession true false {[1 := demo_pins]} ∅ {[(1, 0) := true]}.

Definition closed : ChainSession :=
  mkSession false false {[1 := demo_pins]} {[(1, 1, OE) := true]} {[(1, 0) := true]}.

End Engine.

(** * Properties *)

(** What [_check_return] does with a return value, as a result. *)
Definition outcome (code : Z) : Result unit :=
  if code <? 0 then Raise (check_exn code) else Ok tt.

(** The two checked register writes of [pin_set_state]. *)
Definition write_pair {LibState} (lib : LibState -> LibCall -> LibRet * LibState)
    (device pinid oe out : Z) : M LibState unit :=
  bind (call lib (jtagcore_set_pin_state device pinid OE oe)) (fun r =>
  bind (_check_return (rv r)) (fun _ =>
  bind (call lib (jtagcore_set_pin_state device pinid OUTPUT out)) (fun r =>
  _check_return (rv r)))).

(** The body of the inner loop of [get_probe_names], for driver [d]. *)
Definition name_body {LibState} (lib : LibState -> LibCall -> LibRet * LibState)
    (d : Z) (probes : gmap string Z) (i : Z) : M LibState (gmap string Z) :=
  bind (call lib (jtagcore_get_probe_name (Z.lor (Z.shiftl d 8) i))) (fun probename =>
  ret (<[buf_value probename := Z.lor (Z.shiftl d 8) i]> probes)).

(** The body of its outer loop. *)
Definition driver_body {LibState} (lib : LibState -> LibCall -> LibRet * LibState)
    (probes : gmap string Z) (d : Z) : M LibState (gmap string Z) :=
  bind (call lib (jtagcore_get_number_of_probes d)) (fun r =>
  bind (_check_return (rv r)) (fun _ =>
  for_each (seqZ 0 (rv r)) probes (name_body lib d))).

(** [probes[name] = probeid] for each pair in turn. *)
Definition record_all (asg : list (string * Z)) (probes : gmap string Z)
  : gmap string Z :=
  foldl (fun m kv => <[kv.1 := kv.2]> m) probes asg.

(** Name to id, id to name, name to id again. *)
Definition name_id_name_id {LibState} (lib : LibState -> LibCall -> LibRet * LibState)
    (device_number : Z) (name : string) : M LibState Z :=
  bind (pin_get_id lib device_number (Str name)) (fun pinid =>
  bind (pin_get_properties lib device_number (PinNum pinid)) (fun props =>
  pin_get_id lib device_number (Bytes props.1))).

(** An [os.path.exists] for which every path exists. *)
Definition any_file (path : string) : bool := true.

(** What a method that ends in [self._check_return(rv); return rv] gives
    back for the library's answer [r]. *)
Definition checked_value (r : LibRet) : Result Z :=
  if rv r <? 0 then Raise (check_exn (rv r)) else Ok (rv r).

(** The state arguments [pin_set_state] compares against. *)
Definition accepted_states : list PyVal :=
  [PyBool true; PyInt 1; PyStr "high"; PyBool false; PyInt 0; PyStr "low";
   PyNone; PyInt (-1); PyStr "high-z"].

(** The value [set_scan_mode] hands to the library for a mode argument. *)
Definition translated_mode (mode : PyVal) : PyVal :=
  if py_eq mode (PyStr "passive") || py_eq mode (PyStr "sample") then PyInt 0
  else if py_eq mode (PyStr "active") || py_eq mode (PyStr "extest") then PyInt 1
  else mode.

(** The pin type list [pin_get_properties] builds from the type mask, read
    bit by bit. *)
Definition capabilities (pt : Z) : list string :=
  (if Z.testbit pt 0 then ["input"%string] else [])
  ++ (if Z.testbit pt 1 then ["output"%string] else [])
  ++ (if Z.testbit pt 2 then ["oe"%string] else []).

(** The calls of the probe enumeration. *)
Definition is_enumeration_call (c : LibCall) : bool :=
  match c with
  | jtagcore_get_number_of_probes_drv
  | jtagcore_get_number_of_probes _
  | jtagcore_get_probe_name _ => true
  | _ => false
  end.

Section CheckReturn.

Context {LibState : Type}.
Implicit Types (s : LibState) (code : Z).

Lemma check_return_outcome code s :
  _check_return code s = (outcome code, s, []).
Proof.
  unfold _check_return, outcome, check_exn.
  destruct (Z.geb_spec code 0) as [Hge | Hlt].
  - destruct (Z.ltb_spec code 0); [lia | reflexivity].
  - destruct (Z.ltb_spec code 0); [| lia].
    destruct (error_codes code); reflexivity.
Qed.

Lemma outcome_nonneg code : 0 <= code -> outcome code = Ok tt.
Proof. unfold outcome. destruct (Z.ltb_spec code 0); [lia | reflexivity]. Qed.

Lemma outcome_neg code : code < 0 -> outcome code = Raise (check_exn code).
Proof. unfold outcome. destruct (Z.ltb_spec code 0); [reflexivity | lia]. Qed.

(** A library code in the table is reported as an [IOError] that names
    exactly that code's kind. *)
Lemma check_exn_kind code :
  -10 <= code <= -1 ->
  exists name, error_codes code = Some name
    /\ check_exn code = IOError [PyStr ("Exception: " +:+ name)]
    /\ exn_kind (check_exn code) = kind_of_code code
    /\ is_Some (kind_of_code code).
Proof.
  intros H.
  assert (code = -1 \/ code = -2 \/ code = -3 \/ code = -4 \/ code = -5
          \/ code = -6 \/ code = -7 \/ code = -8 \/ code = -9 \/ code = -10)
    as Hc by lia.
  repeat (destruct Hc as [-> | Hc]); try subst code;
    (eexists; repeat split; [reflexivity .. | eexists; reflexivity]).
Qed.

(** A negative value outside the table makes the dictionary lookup fail. *)
Lemma check_exn_unknown code : code < -10 -> check_exn code = KeyError code.
Proof.
  intros H. unfold check_exn.
  destruct code as [| p | p]; try lia.
  do 4 (destruct p as [p | p |]; try lia; try reflexivity).
Qed.

End CheckReturn.

Section Methods.

Context {LibState : Type}.
Variable lib : LibState -> LibCall -> LibRet * LibState.
Variable path_exists : string -> bool.
Implicit Types (s : LibState) (c : LibCall).

Lemma bind_run {A B} (m : M LibState A) (k : A -> M LibState B) s :
  bind m k s
  = match m s with
    | (Ok a, s1, t1) => match k a s1 with (r, s2, t2) => (r, s2, t1 ++ t2) end
    | (Raise e, s1, t1) => (Raise e, s1, t1)
    end.
Proof. reflexivity. Qed.

(** One library call followed by its check. *)
Lemma checked_call_run c s :
  bind (call lib c) (fun r => _check_return (rv r)) s
  = (outcome (rv (lib s c).1), (lib s c).2, [(c, (lib s c).1)]).
Proof.
  unfold bind, call. destruct (lib s c) as [r s1]. simpl.
  rewrite check_return_outcome. reflexivity.
Qed.

Lemma scan_run (write_only : bool) s :
  let c := jtagcore_push_and_pop_chain (if write_only then 1 else 0) in
  scan lib write_only s = (outcome (rv (lib s c).1), (lib s c).2, [(c, (lib s c).1)]).
Proof. apply checked_call_run. Qed.

Lemma write_pair_run device pinid oe out s :
  let w1 := jtagcore_set_pin_state device pinid OE oe in
  let w2 := jtagcore_set_pin_state device pinid OUTPUT out in
  let r1 := (lib s w1).1 in
  let s1 := (lib s w1).2 in
  let r2 := (lib s1 w2).1 in
  let s2 := (lib s1 w2).2 in
  write_pair lib device pinid oe out s
  = if rv r1 <? 0 then (Raise (check_exn (rv r1)), s1, [(w1, r1)])
    else (outcome (rv r2), s2, [(w1, r1); (w2, r2)]).
Proof.
  cbv zeta. unfold write_pair, bind at 1 2, call at 1.
  destruct (lib s (jtagcore_set_pin_state device pinid OE oe)) as [r1 s1].
  cbn [fst snd]. rewrite check_return_outcome. unfold outcome at 1.
  destruct (rv r1 <? 0); [reflexivity |].
  rewrite checked_call_run. reflexivity.
Qed.

(** [pin_set_state] on a recognised state: resolve the pin, do the two
    checked writes, scan if asked. *)
Lemma pin_set_state_unfold device pinid state scan_now l :
  logical_state state = Some l ->
  pin_set_state lib device pinid state scan_now
  = bind (resolve_pinid lib device pinid) (fun p =>
    bind (write_pair lib device p (oe_bit l) (output_bit l)) (fun _ =>
    if scan_now then scan lib false else ret tt)).
Proof.
  unfold logical_state, pin_set_state. intros H.
  destruct (py_eq state (PyBool true) || py_eq state (PyInt 1)
            || py_eq state (PyStr "high")).
  { injection H as <-. reflexivity. }
  destruct (py_eq state (PyBool false) || py_eq state (PyInt 0)
            || py_eq state (PyStr "low")).
  { injection H as <-. reflexivity. }
  destruct (py_eq state PyNone || py_eq state (PyInt (-1))
            || py_eq state (PyStr "high-z")).
  { injection H as <-. reflexivity. }
  discriminate.
Qed.

Lemma register_writes_app t1 t2 :
  register_writes (t1 ++ t2) = register_writes t1 ++ register_writes t2.
Proof.
  unfold register_writes, calls. rewrite fmap_app. apply List.filter_app.
Qed.

(** Resolving a pin issues no register write. *)
Lemma resolve_pinid_no_write device pinid s :
  register_writes (trace_of (resolve_pinid lib device pinid s)) = [].
Proof.
  destruct pinid as [n | name]; [reflexivity |].
  unfold resolve_pinid, pin_get_id, bind, call.
  destruct (lib s _) as [r s1]. rewrite check_return_outcome.
  destruct (outcome (rv r)); reflexivity.
Qed.

Lemma scan_no_write (write_only : bool) s :
  register_writes (trace_of (scan lib write_only s)) = [].
Proof. rewrite scan_run. reflexivity. Qed.

Lemma py_eq_str v (t : string) : py_eq v (PyStr t) = true <-> v = PyStr t.
Proof.
  destruct v as [| [|] | n | u | u]; unfold py_eq; cbn [py_int_of];
    try (split; [discriminate | congruence]).
  rewrite String.eqb_eq. split; congruence.
Qed.

Lemma py_eq_str_false v (t : string) : v <> PyStr t -> py_eq v (PyStr t) = false.
Proof.
  intros H. destruct (py_eq v (PyStr t)) eqn:E; [| reflexivity].
  apply py_eq_str in E. contradiction.
Qed.




End Methods.

(** ** Pin writes, pin reads, scan mode and descriptor files *)

Section MethodClaims.

Context {LibState : Type}.
Variable lib : LibState -> LibCall -> LibRet * LibState.
Variable path_exists : string -> bool.
Implicit Types (s : LibState) (c : LibCall).

(** C1.  For every device, pin id and logical state [pin_set_state]
    decomposes into two register writes, output-enable first, then output,
    with the values 1,1 for high, 1,0 for low and 0,0 for high-impedance:
    these two writes, in that order and no other, are the register writes
    of every run in which the pin id resolves and the library accepts the
    output-enable write.  A run cut short by a failure issues a prefix of
    them: the output-enable write alone when the library rejects it, none
    when the pin name does not resolve. *)
Theorem pin_set_state_register_writes device pinid state (scan_now : bool) l s :
  logical_state state = Some l ->
  let tr := trace_of (pin_set_state lib device pinid state scan_now s) in
  match resolve_pinid lib device pinid s with
  | (Ok p, s1, _) =>
      let w1 := jtagcore_set_pin_state device p OE (oe_bit l) in
      let w2 := jtagcore_set_pin_state device p OUTPUT (output_bit l) in
      register_writes tr = w1 :: (if rv (lib s1 w1).1 <? 0 then [] else [w2])
  | (Raise _, _, _) => register_writes tr = []
  end.
Proof.
  intros Hl. cbv zeta. rewrite (pin_set_state_unfold lib _ _ _ _ l Hl).
  pose proof (resolve_pinid_no_write lib device pinid s) as Hres.
  unfold bind, trace_of in *.
  destruct (resolve_pinid lib device pinid s) as [[[p | e] s1] t1];
    cbn [fst snd] in *; [| exact Hres].
  rewrite write_pair_run.
  destruct (rv (lib s1 (jtagcore_set_pin_state device p OE (oe_bit l))).1 <? 0).
  - cbn [snd]. rewrite register_writes_app, Hres. reflexivity.
  - set (s2 := (lib _ (jtagcore_set_pin_state device p OUTPUT _)).2).
    destruct (outcome _).
    + pose proof (scan_no_write lib false s2) as Hscan.
      unfold trace_of in Hscan.
      destruct scan_now.
      * destruct (scan lib false s2) as [[r3 s3] t3]. cbn [snd] in *.
        rewrite !register_writes_app, Hres, Hscan. reflexivity.
      * cbn [ret snd]. rewrite !register_writes_app, Hres. reflexivity.
    + cbn [snd]. rewrite register_writes_app, Hres. reflexivity.
Qed.

(** C4.  In [pin_set_state] each of the two register writes is checked
    before anything else is issued.  If the library rejects the first
    write, the call fails with that error and the second write is never
    issued.  If it accepts the first and rejects the second, the call
    fails with the second error, no further call (no undo, no scan) is
    issued, and the library is left in the state it reached by processing
    the second write on top of the first: the first write stays. *)
Theorem pin_set_state_no_rollback device pinid state (scan_now : bool) l s p s0 t0 :
  logical_state state = Some l ->
  resolve_pinid lib device pinid s = (Ok p, s0, t0) ->
  let w1 := jtagcore_set_pin_state device p OE (oe_bit l) in
  let w2 := jtagcore_set_pin_state device p OUTPUT (output_bit l) in
  let r1 := (lib s0 w1).1 in
  let s1 := (lib s0 w1).2 in
  let r2 := (lib s1 w2).1 in
  let s2 := (lib s1 w2).2 in
  (rv r1 < 0 ->
     pin_set_state lib device pinid state scan_now s
     = (Raise (check_exn (rv r1)), s1, t0 ++ [(w1, r1)]))
  /\ (0 <= rv r1 -> rv r2 < 0 ->
     pin_set_state lib device pinid state scan_now s
     = (Raise (check_exn (rv r2)), s2, t0 ++ [(w1, r1); (w2, r2)])).
Proof.
  intros Hl Hres. cbv zeta.
  rewrite (pin_set_state_unfold lib _ _ _ _ l Hl).
  unfold bind. rewrite Hres, write_pair_run.
  split.
  - intros H1. apply Z.ltb_lt in H1. rewrite H1. reflexivity.
  - intros H1 H2. apply Z.ltb_ge in H1. rewrite H1.
    rewrite (outcome_neg _ H2). reflexivity.
Qed.

(** C6 (as amended).  For a direction argument that is none of "input",
    "output" and "oe", [pin_get_state] never reads the register image:
    once the pin id is resolved it fails with a [ValueError], the
    binding's own bad-parameter rejection.  With a numeric pin id this
    happens without any library call; with a pin name the name is looked
    up in the library first, and a failed lookup is reported instead.
    For a recognised direction and a resolved pin it issues one read of
    the register image with that direction's code and returns the value
    read, or fails with the library's error if that is negative. *)
Theorem pin_get_state_direction device pinid pintype s :
  ((forall d, pintype <> PyStr (direction_name d)) ->
     let e := ValueError [PyStr "Invalid pintype"; pintype] in
     exn_kind e = Some BadParameter
     /\ (forall n, pinid = PinNum n ->
           pin_get_state lib device pinid pintype s = (Raise e, s, []))
     /\ (forall name, pinid = PinName name ->
           let c := jtagcore_get_pin_id device name in
           pin_get_state lib device pinid pintype s
           = (if rv (lib s c).1 <? 0 then Raise (check_exn (rv (lib s c).1))
              else Raise e,
              (lib s c).2, [(c, (lib s c).1)])))
  /\ (forall d p s1 t1,
        pintype = PyStr (direction_name d) ->
        resolve_pinid lib device pinid s = (Ok p, s1, t1) ->
        let c := jtagcore_get_pin_state device p (direction_code d) in
        let r := (lib s1 c).1 in
        pin_get_state lib device pinid pintype s
        = (if rv r <? 0 then Raise (check_exn (rv r)) else Ok (rv r),
           (lib s1 c).2, t1 ++ [(c, r)])).
Proof.
  split.
  - intros Hd. cbv zeta.
    assert (py_eq pintype (PyStr "input") = false) as E1
      by (apply py_eq_str_false, (Hd DirInput)).
    assert (py_eq pintype (PyStr "output") = false) as E2
      by (apply py_eq_str_false, (Hd DirOutput)).
    assert (py_eq pintype (PyStr "oe") = false) as E3
      by (apply py_eq_str_false, (Hd DirOE)).
    split; [reflexivity |]. split.
    + intros n ->. unfold pin_get_state. rewrite E1, E2, E3. reflexivity.
    + intros name ->. unfold pin_get_state. rewrite E1, E2, E3.
      unfold resolve_pinid, pin_get_id, bind, call.
      destruct (lib s (jtagcore_get_pin_id device name)) as [r s1].
      cbn [fst snd]. rewrite check_return_outcome. unfold outcome.
      destruct (rv r <? 0); reflexivity.
  - intros d p s1 t1 -> Hres. cbv zeta. unfold pin_get_state.
    rewrite bind_run, Hres.
    assert (forall k : Z -> M LibState Z,
              bind (if py_eq (PyStr (direction_name d)) (PyStr "input") then ret INPUT
                    else if py_eq (PyStr (direction_name d)) (PyStr "output") then ret OUTPUT
                    else if py_eq (PyStr (direction_name d)) (PyStr "oe") then ret OE
                    else raise (ValueError [PyStr "Invalid pintype"; PyStr (direction_name d)]))
                   k s1
              = match k (direction_code d) s1 with (r, s2, t2) => (r, s2, t2) end) as Hk.
    { intros k. destruct d; unfold bind; cbn; destruct (k _ s1) as [[r s2] t2];
        reflexivity. }
    rewrite Hk. unfold bind, call.
    destruct (lib s1 (jtagcore_get_pin_state device p (direction_code d))) as [r s2].
    cbn [fst snd]. rewrite check_return_outcome. unfold outcome.
    destruct (rv r <? 0); reflexivity.
Qed.

(** C8.  When the descriptor path does not exist, [bsdl_attach] and
    [bsdl_devid] fail with an [IOError] (an I/O error of the binding's
    own) and issue no library call: the descriptor parser is not
    invoked. *)
Theorem bsdl_unreadable_source filepath device_number s :
  path_exists filepath = false ->
  let e := IOError [PyStr ("Check path: " +:+ filepath); PyStr filepath] in
  bsdl_attach lib path_exists filepath device_number s = (Raise e, s, [])
  /\ bsdl_devid lib path_exists filepath s = (Raise e, s, [])
  /\ exn_kind e = Some IoError.
Proof.
  intros H. unfold bsdl_attach, bsdl_devid. rewrite H. cbn [negb].
  repeat split.
Qed.


End MethodClaims.

(** ** Probe enumeration *)

Section Enumeration.

Context {LibState : Type}.
Variable lib : LibState -> LibCall -> LibRet * LibState.
Implicit Types (s : LibState) (probes : gmap string Z) (tr : Trace).

Lemma get_probe_names_unfold :
  get_probe_names lib
  = bind (call lib jtagcore_get_number_of_probes_drv) (fun r =>
    bind (_check_return (rv r)) (fun _ =>
    for_each (seqZ 0 (rv r)) ∅ (driver_body lib))).
Proof. reflexivity. Qed.

Lemma assignments_app t1 t2 :
  assignments (t1 ++ t2) = assignments t1 ++ assignments t2.
Proof. apply omap_app. Qed.

Lemma probe_counts_app t1 t2 :
  probe_counts (t1 ++ t2) = probe_counts t1 ++ probe_counts t2.
Proof. apply omap_app. Qed.

Lemma probe_queries_app t1 t2 :
  probe_queries (t1 ++ t2) = probe_queries t1 ++ probe_queries t2.
Proof. unfold probe_queries. rewrite assignments_app. apply fmap_app. Qed.

Lemma composite_ids_app c1 c2 :
  composite_ids (c1 ++ c2) = composite_ids c1 ++ composite_ids c2.
Proof. apply flat_map_app. Qed.

Lemma record_all_app a1 a2 probes :
  record_all (a1 ++ a2) probes = record_all a2 (record_all a1 probes).
Proof. apply foldl_app. Qed.

Lemma for_each_cons_run {A B} (x : A) (xs : list A) (acc : B)
    (body : B -> A -> M LibState B) s :
  for_each (x :: xs) acc body s
  = match body acc x s with
    | (Ok a, s1, t1) =>
        match for_each xs a body s1 with (r, s2, t2) => (r, s2, t1 ++ t2) end
    | (Raise e, s1, t1) => (Raise e, s1, t1)
    end.
Proof. reflexivity. Qed.

Lemma name_body_run d probes i s :
  let c := jtagcore_get_probe_name (Z.lor (Z.shiftl d 8) i) in
  name_body lib d probes i s
  = (Ok (<[buf_value (lib s c).1 := Z.lor (Z.shiftl d 8) i]> probes),
     (lib s c).2, [(c, (lib s c).1)]).
Proof.
  cbv zeta. unfold name_body, bind, call, ret.
  destruct (lib s _) as [r s1]. reflexivity.
Qed.

Lemma driver_body_run probes d s :
  let c := jtagcore_get_number_of_probes d in
  let r := (lib s c).1 in
  driver_body lib probes d s
  = if rv r <? 0 then (Raise (check_exn (rv r)), (lib s c).2, [(c, r)])
    else match for_each (seqZ 0 (rv r)) probes (name_body lib d) (lib s c).2 with
         | (res, s2, t2) => (res, s2, (c, r) :: t2)
         end.
Proof.
  cbv zeta. unfold driver_body. rewrite bind_run. unfold call.
  destruct (lib s _) as [r s1]. cbn [fst snd].
  rewrite bind_run, check_return_outcome. unfold outcome.
  destruct (rv r <? 0); [reflexivity |].
  destruct (for_each _ _ _ s1) as [[res s2] t2]. reflexivity.
Qed.

(** The inner loop never fails: it asks for the name of each composite
    identifier of the driver and records it under the name it got. *)
Lemma name_loop_run d (l : list Z) probes s :
  let run := for_each l probes (name_body lib d) s in
  result_of run = Ok (record_all (assignments (trace_of run)) probes)
  /\ probe_counts (trace_of run) = []
  /\ probe_queries (trace_of run) = (fun i => Z.lor (Z.shiftl d 8) i) <$> l.
Proof.
  revert probes s. induction l as [| i l IH]; intros probes s; cbv zeta.
  - repeat split.
  - rewrite for_each_cons_run, name_body_run.
    set (r := (lib s _).1). set (s1 := (lib s _).2).
    specialize (IH (<[buf_value r := Z.lor (Z.shiftl d 8) i]> probes) s1).
    cbv zeta in IH. destruct IH as (IH1 & IH2 & IH3).
    destruct (for_each l _ (name_body lib d) s1) as [[res s2] t2].
    unfold result_of, trace_of in *. cbn [fst snd] in *.
    rewrite assignments_app, probe_counts_app, probe_queries_app.
    rewrite IH1, IH2, IH3. repeat split.
Qed.

(** The outer loop: whatever the library answers, the names requested
    are those of the composite identifiers of the counts reported so far;
    if it completes, every driver of the list was asked for its count. *)
Lemma driver_loop_run (l : list Z) probes s :
  let run := for_each l probes (driver_body lib) s in
  probe_queries (trace_of run) = composite_ids (probe_counts (trace_of run))
  /\ (forall probes', result_of run = Ok probes' ->
        probes' = record_all (assignments (trace_of run)) probes
        /\ (probe_counts (trace_of run)).*1 = l).
Proof.
  revert probes s. induction l as [| d l IH]; intros probes s; cbv zeta.
  - split; [reflexivity |]. intros probes' H. injection H as <-. split; reflexivity.
  - rewrite for_each_cons_run, driver_body_run.
    set (r := (lib s _).1). set (s1 := (lib s _).2).
    destruct (Z.ltb_spec (rv r) 0) as [Hneg | Hpos].
    + unfold result_of, trace_of. cbn.
      rewrite seqZ_nil by lia. split; [reflexivity | discriminate].
    + pose proof (name_loop_run d (seqZ 0 (rv r)) probes s1) as Hin.
      cbv zeta in Hin. destruct Hin as (Hin1 & Hin2 & Hin3).
      destruct (for_each (seqZ 0 (rv r)) probes (name_body lib d) s1)
        as [[res s2] t2].
      unfold result_of, trace_of in Hin1, Hin2, Hin3. cbn [fst snd] in *.
      subst res.
      specialize (IH (record_all (assignments t2) probes) s2).
      cbv zeta in IH. destruct IH as (IH1 & IH2).
      destruct (for_each l _ (driver_body lib) s2) as [[res3 s3] t3].
      unfold result_of, trace_of in *. cbn [fst snd] in *.
      change (((jtagcore_get_number_of_probes d, r) :: t2) ++ t3)
        with ([(jtagcore_get_number_of_probes d, r)] ++ t2 ++ t3).
      rewrite !probe_queries_app, !probe_counts_app, !assignments_app.
      rewrite Hin2, Hin3, IH1. cbn [app].
      split.
      * change (probe_counts [(jtagcore_get_number_of_probes d, r)])
          with [(d, rv r)].
        change (probe_queries [(jtagcore_get_number_of_probes d, r)])
          with (@nil Z).
        cbn [app]. unfold composite_ids at 2. cbn [flat_map fst snd].
        reflexivity.
      * intros probes' H. destruct (IH2 _ H) as [-> Hl].
        change (assignments [(jtagcore_get_number_of_probes d, r)])
          with (@nil (string * Z)).
        change (probe_counts [(jtagcore_get_number_of_probes d, r)])
          with [(d, rv r)].
        rewrite !record_all_app. cbn [app fmap list_fmap fst].
        rewrite Hl. split; reflexivity.
Qed.

End Enumeration.

Section RecordAll.

Implicit Types (asg : list (string * Z)) (m : gmap string Z) (k : string) (v : Z).

Lemma record_all_cons k v asg m :
  record_all ((k, v) :: asg) m = record_all asg (<[k := v]> m).
Proof. reflexivity. Qed.

Lemma record_all_snoc asg k v m :
  record_all (asg ++ [(k, v)]) m = <[k := v]> (record_all asg m).
Proof. unfold record_all. rewrite foldl_snoc. reflexivity. Qed.

Lemma record_all_lookup_other asg m k :
  k ∉ asg.*1 -> record_all asg m !! k = m !! k.
Proof.
  revert m. induction asg as [| [k' v'] asg IH]; intros m Hk; [reflexivity |].
  rewrite record_all_cons. cbn in Hk. apply not_elem_of_cons in Hk as [Hne Hk].
  rewrite IH by exact Hk. apply lookup_insert_ne. congruence.
Qed.

(** The pair recorded last under a name is the one the mapping keeps. *)
Lemma record_all_last before k v after m :
  k ∉ after.*1 ->
  record_all (before ++ (k, v) :: after) m !! k = Some v.
Proof.
  intros Hk. unfold record_all. rewrite foldl_app. fold (record_all before m).
  change (foldl _ (record_all before m) ((k, v) :: after))
    with (record_all after (<[k := v]> (record_all before m))).
  rewrite record_all_lookup_other by exact Hk. apply lookup_insert_eq.
Qed.

Lemma record_all_lookup_Some asg m k v :
  record_all asg m !! k = Some v -> (k, v) ∈ asg \/ m !! k = Some v.
Proof.
  revert m. induction asg as [| [k' v'] asg IH]; intros m H; [right; exact H |].
  rewrite record_all_cons in H. destruct (IH _ H) as [Hin | Hm].
  - left. right. exact Hin.
  - destruct (decide (k' = k)) as [-> | Hne].
    + rewrite lookup_insert_eq in Hm. injection Hm as ->. left. left.
    + rewrite lookup_insert_ne in Hm by exact Hne. right. exact Hm.
Qed.

Lemma record_all_is_Some asg k :
  is_Some (record_all asg ∅ !! k) <-> k ∈ asg.*1.
Proof.
  induction asg as [| [k' v'] asg IH] using rev_ind.
  - cbn. rewrite lookup_empty. split; [intros [? ?]; discriminate |].
    intros H. inversion H.
  - rewrite record_all_snoc, fmap_app, elem_of_app. cbn.
    rewrite lookup_insert_is_Some, IH, list_elem_of_singleton.
    split.
    + intros [-> | [_ H]]; [right; reflexivity | left; exact H].
    + intros [H | ->]; [| left; reflexivity].
      destruct (decide (k' = k)); [left; assumption | right; split; assumption].
Qed.

(** The mapping has at most one entry per recorded pair, and fewer as
    soon as a name is recorded twice. *)
Lemma record_all_size asg :
  (size (record_all asg ∅) <= length asg)%nat
  /\ (~ NoDup asg.*1 -> (size (record_all asg ∅) < length asg)%nat).
Proof.
  induction asg as [| [k v] asg [IHle IHlt]] using rev_ind.
  - split; [cbn; rewrite map_size_empty; lia |].
    intros H. exfalso. apply H. constructor.
  - rewrite record_all_snoc, length_app, map_size_insert. cbn [length].
    pose proof (record_all_is_Some asg k) as Hdom.
    destruct (record_all asg ∅ !! k) as [v0 |] eqn:E; cbn.
    + split; lia.
    + split; [lia |]. intros Hnd.
      destruct (decide (NoDup asg.*1)) as [Hn | Hn]; [| specialize (IHlt Hn); lia].
      exfalso. apply Hnd. rewrite fmap_app. apply NoDup_app.
      split; [exact Hn |]. split; [| apply NoDup_singleton].
      intros x Hx Hx'. cbn in Hx'. apply list_elem_of_singleton in Hx'. subst x.
      apply Hdom in Hx. destruct Hx as [? ?]. discriminate.
Qed.

End RecordAll.

Section EnumerationClaims.

Context {LibState : Type}.
Variable lib : LibState -> LibCall -> LibRet * LibState.
Implicit Types (s : LibState) (probes : gmap string Z).

Lemma get_probe_names_run s :
  let c := jtagcore_get_number_of_probes_drv in
  let r := (lib s c).1 in
  get_probe_names lib s
  = if rv r <? 0 then (Raise (check_exn (rv r)), (lib s c).2, [(c, r)])
    else match for_each (seqZ 0 (rv r)) ∅ (driver_body lib) (lib s c).2 with
         | (res, s2, t2) => (res, s2, (c, r) :: t2)
         end.
Proof.
  cbv zeta. rewrite get_probe_names_unfold, bind_run. unfold call.
  destruct (lib s _) as [r s1]. cbn [fst snd].
  rewrite bind_run, check_return_outcome. unfold outcome.
  destruct (rv r <? 0); [reflexivity |].
  destruct (for_each _ _ _ s1) as [[res s2] t2]. reflexivity.
Qed.

(** The run of [get_probe_names] seen through its trace. *)
Lemma get_probe_names_trace s :
  let run := get_probe_names lib s in
  probe_queries (trace_of run) = composite_ids (probe_counts (trace_of run))
  /\ (forall probes, result_of run = Ok probes ->
        probes = record_all (assignments (trace_of run)) ∅
        /\ (probe_counts (trace_of run)).*1
           = seqZ 0 (rv (lib s jtagcore_get_number_of_probes_drv).1)).
Proof.
  cbv zeta. rewrite get_probe_names_run.
  set (r := (lib s _).1). set (s1 := (lib s _).2).
  destruct (rv r <? 0).
  - split; [reflexivity | discriminate].
  - pose proof (driver_loop_run lib (seqZ 0 (rv r)) ∅ s1) as H.
    cbv zeta in H.
    destruct (for_each _ _ (driver_body lib) s1) as [[res s2] t2].
    exact H.
Qed.

Lemma composite_ids_elem counts id :
  id ∈ composite_ids counts <->
  exists d n i, (d, n) ∈ counts /\ 0 <= i < n /\ id = Z.lor (Z.shiftl d 8) i.
Proof.
  unfold composite_ids. rewrite list_elem_of_In, in_flat_map. split.
  - intros [[d n] [Hin Hid]]. apply list_elem_of_In in Hin, Hid.
    apply list_elem_of_fmap in Hid as [i [-> Hi]].
    apply elem_of_seqZ in Hi. cbn [fst snd] in Hi. exists d, n, i.
    split; [exact Hin |]. split; [lia | reflexivity].
  - intros (d & n & i & Hin & Hi & ->). exists (d, n).
    rewrite <- !list_elem_of_In. split; [exact Hin |].
    apply list_elem_of_fmap. exists i. split; [reflexivity |].
    apply elem_of_seqZ. cbn. lia.
Qed.


(** C9.  The result of [get_probe_names] is keyed by probe name: a name
    reported by several enumerated instances keeps one entry, holding the
    identifier of the instance enumerated last under that name; the
    result never has more entries than there are enumerated instances,
    and has strictly fewer as soon as two instances report the same
    name, which does happen. *)
Theorem get_probe_names_keyed_by_name s probes :
  result_of (get_probe_names lib s) = Ok probes ->
  let asg := assignments (trace_of (get_probe_names lib s)) in
  (forall before name id after,
      asg = before ++ (name, id) :: after -> name ∉ after.*1 ->
      probes !! name = Some id)
  /\ (forall name, is_Some (probes !! name) <-> name ∈ asg.*1)
  /\ (size probes <= length asg)%nat
  /\ (~ NoDup asg.*1 -> (size probes < length asg)%nat)
  /\ (exists script probes',
        result_of (get_probe_names replay script) = Ok probes'
        /\ (size probes'
            < length (assignments (trace_of (get_probe_names replay script))))%nat).
Proof.
  intros Hres. cbv zeta.
  destruct (get_probe_names_trace s) as [_ Hok]. cbv zeta in Hok.
  destruct (Hok _ Hres) as [Hp _]. clear Hok.
  set (asg := assignments _) in *.
  repeat split.
  - intros before name id after Hasg Hlast. rewrite Hp, Hasg.
    apply record_all_last. exact Hlast.
  - rewrite Hp. apply record_all_is_Some.
  - rewrite Hp. apply record_all_is_Some.
  - rewrite Hp. apply record_all_size.
  - rewrite Hp. apply record_all_size.
  - exists [ret_code 1; ret_code 2; mkRet 0 "USB JLINK ARM" 0;
            mkRet 0 "USB JLINK ARM" 0].
    exists {["USB JLINK ARM"%string := 1]}.
    split; [vm_compute; reflexivity |]. vm_compute. lia.
Qed.

End EnumerationClaims.

(** ** Pin names and ids; scanning without a session *)

Section Accessors.

Context {LibState : Type}.
Variable lib : LibState -> LibCall -> LibRet * LibState.
Implicit Types (s : LibState).

Lemma pin_get_id_run device_number pinname s :
  let c := jtagcore_get_pin_id device_number
             (match pinname with Str n => n | Bytes b => b end) in
  let r := (lib s c).1 in
  pin_get_id lib device_number pinname s
  = (if rv r <? 0 then Raise (check_exn (rv r)) else Ok (rv r),
     (lib s c).2, [(c, r)]).
Proof.
  cbv zeta. unfold pin_get_id. rewrite bind_run. unfold call.
  destruct (lib s _) as [r s1]. cbn [fst snd].
  rewrite bind_run, check_return_outcome. unfold outcome.
  destruct (rv r <? 0); reflexivity.
Qed.

Lemma pin_get_properties_run device_number pinid s :
  let c := jtagcore_get_pin_properties device_number pinid 500 in
  let r := (lib s c).1 in
  0 <= rv r ->
  exists pintype,
    pin_get_properties lib device_number (PinNum pinid) s
    = (Ok (buf_value r, pintype), (lib s c).2, [(c, r)]).
Proof.
  cbv zeta. intros H. unfold pin_get_properties. rewrite bind_run. unfold call.
  destruct (lib s _) as [r s1]. cbn [fst snd] in *.
  rewrite bind_run, check_return_outcome, (outcome_nonneg _ H).
  eexists. reflexivity.
Qed.

End Accessors.

Section EngineClaims.

Import Engine.
Implicit Types (s : ChainSession) (pins : list PinDescriptor).

Lemma pin_index_spec name pins i j :
  pin_index name pins i = Some j ->
  i <= j /\ exists p, pins !! Z.to_nat (j - i) = Some p /\ pin_name p = name.
Proof.
  revert i. induction pins as [| p pins IH]; intros i H; [discriminate |].
  cbn [pin_index] in H. destruct (String.eqb_spec (pin_name p) name) as [E | E].
  - injection H as <-. split; [lia |]. exists p.
    replace (i - i) with 0 by lia. split; [reflexivity | exact E].
  - destruct (IH _ H) as [Hle (q & Hq & Hn)]. split; [lia |]. exists q.
    split; [| exact Hn].
    replace (Z.to_nat (j - i)) with (S (Z.to_nat (j - (i + 1)))) by lia.
    exact Hq.
Qed.

Lemma pin_index_known name pins i :
  name ∈ pin_name <$> pins -> is_Some (pin_index name pins i).
Proof.
  revert i. induction pins as [| p pins IH]; intros i H; [inversion H |].
  cbn [pin_index]. destruct (String.eqb_spec (pin_name p) name) as [E | E].
  - eexists. reflexivity.
  - apply IH. cbn in H. apply elem_of_cons in H as [H | H]; [congruence | exact H].
Qed.

Lemma engine_pin_get_id s d pins name j pinname :
  descriptors s !! d = Some pins ->
  pin_index name pins 0 = Some j ->
  match pinname with Str n => n | Bytes b => b end = name ->
  pin_get_id step d pinname s
  = (Ok j, s, [(jtagcore_get_pin_id d name, ret_code j)]).
Proof.
  intros Hd Hi Hn. rewrite pin_get_id_run, Hn. cbn [step].
  unfold get_pin_id. rewrite Hd, Hi. cbn [fst snd ret_code rv].
  destruct (pin_index_spec _ _ _ _ Hi) as [Hle _].
  destruct (Z.ltb_spec j 0); [lia | reflexivity].
Qed.

(** C3.  With the engine of the specification, [scan] called while no
    probe session is open fails with the NoProbe kind
    ([IOError("Exception: JTAG_CORE_NO_PROBE")]) and leaves the session,
    and with it the in-memory register image, exactly as it was. *)
Theorem scan_without_session (write_only : bool) s :
  session_open s = false ->
  let e := IOError [PyStr "Exception: JTAG_CORE_NO_PROBE"] in
  scan step write_only s
  = (Raise e, s,
     [(jtagcore_push_and_pop_chain (if write_only then 1 else 0), ret_code (-5))])
  /\ exn_kind e = Some NoProbe
  /\ image (state_of (scan step write_only s)) = image s.
Proof.
  intros H. cbv zeta. rewrite scan_run. cbn [step].
  unfold push_and_pop_chain. rewrite H. cbn [negb fst snd ret_code rv].
  repeat split.
Qed.

(** C7.  With the engine of the specification, for every device that has
    a descriptor attached and every pin name of that descriptor: the id
    found for the name, fed to [pin_get_properties], gives back that
    name, and looking up the name given back yields the same id again. *)
Theorem pin_name_round_trip s d pins name :
  descriptors s !! d = Some pins ->
  name ∈ pin_name <$> pins ->
  exists pinid pintype,
    result_of (pin_get_id step d (Str name) s) = Ok pinid
    /\ result_of (pin_get_properties step d (PinNum pinid) s) = Ok (name, pintype)
    /\ result_of (name_id_name_id step d name s)
       = result_of (pin_get_id step d (Str name) s).
Proof.
  intros Hd Hn.
  destruct (pin_index_known name pins 0 Hn) as [j Hj].
  destruct (pin_index_spec _ _ _ _ Hj) as [Hle (p & Hp & Hname)].
  replace (j - 0) with j in Hp by lia.
  pose proof (engine_pin_get_id s d pins name j (Str name) Hd Hj eq_refl) as Hid.
  assert (step s (jtagcore_get_pin_properties d j 500) = (mkRet 0 name (pin_caps p), s))
    as Hstep.
  { cbn [step]. unfold get_pin_properties, pin_at. rewrite Hd.
    destruct (Z.ltb_spec j 0); [lia |]. rewrite Hp, Hname. reflexivity. }
  destruct (pin_get_properties_run step d j s) as [pintype Hprops].
  { rewrite Hstep. cbn. lia. }
  rewrite Hstep in Hprops. cbn [fst snd buf_value] in Hprops.
  exists j, pintype. rewrite Hid, Hprops. repeat split.
  unfold name_id_name_id. rewrite bind_run, Hid, bind_run, Hprops.
  cbn [fst].
  rewrite (engine_pin_get_id s d pins name j (Bytes name) Hd Hj eq_refl).
  reflexivity.
Qed.

End EngineClaims.

(** ** Concrete runs *)

Lemma pin_set_state_register_writes_witness :
  logical_state (PyBool true) = Some High
  /\ register_writes
       (trace_of (pin_set_state replay 1 (PinName "PA11") (PyBool true) true
                    [ret_code 3; ret_code 0; ret_code 0; ret_code 0]))
     = [jtagcore_set_pin_state 1 3 OE 1; jtagcore_set_pin_state 1 3 OUTPUT 1].
Proof.
  split; [reflexivity |].
  exact (pin_set_state_register_writes replay 1 (PinName "PA11") (PyBool true) true
           High [ret_code 3; ret_code 0; ret_code 0; ret_code 0] eq_refl).
Defined.

Lemma pin_set_state_no_rollback_witness :
  (logical_state (PyStr "low") = Some Low
   /\ pin_set_state replay 1 (PinNum 3) (PyStr "low") true [ret_code (-1)]
      = (Raise (IOError [PyStr "Exception: JTAG_CORE_BAD_PARAMETER"]), [],
         [(jtagcore_set_pin_state 1 3 OE 1, ret_code (-1))]))
  /\ (logical_state PyNone = Some HighZ
      /\ pin_set_state replay 1 (PinNum 3) PyNone true
           [ret_code 0; ret_code (-3); ret_code 0]
         = (Raise (IOError [PyStr "Exception: JTAG_CORE_IO_ERROR"]), [ret_code 0],
            [(jtagcore_set_pin_state 1 3 OE 0, ret_code 0);
             (jtagcore_set_pin_state 1 3 OUTPUT 0, ret_code (-3))])).
Proof.
  split; (split; [reflexivity |]).
  - apply (proj1 (pin_set_state_no_rollback replay 1 (PinNum 3) (PyStr "low") true
                    Low [ret_code (-1)] 3 [ret_code (-1)] [] eq_refl eq_refl)).
    cbn. lia.
  - apply (proj2 (pin_set_state_no_rollback replay 1 (PinNum 3) PyNone true
                    HighZ [ret_code 0; ret_code (-3); ret_code 0] 3
                    [ret_code 0; ret_code (-3); ret_code 0] [] eq_refl eq_refl));
      cbn; lia.
Defined.

(** C5 fails on [get_probe_names]: the value returned by
    [jtagcore_get_probe_name] is dropped, so with a library that answers
    that call with -3 (JTAG_CORE_IO_ERROR) the enumeration returns normally;
    and a negative value outside the table of codes (a device id with bit 31
    set, read back as a negative C int) is turned into a [KeyError], which
    names no error kind. *)
Theorem library_error_not_reported :
  get_probe_names replay [ret_code 1; ret_code 1; mkRet (-3) EmptyString 0]
  = (Ok {[ EmptyString := 0 ]}, [],
     [(jtagcore_get_number_of_probes_drv, ret_code 1);
      (jtagcore_get_number_of_probes 0, ret_code 1);
      (jtagcore_get_probe_name 0, mkRet (-3) EmptyString 0)])
  /\ get_devid replay 0 [ret_code (-1412628479)]
     = (Raise (KeyError (-1412628479)), [],
        [(jtagcore_get_dev_id 0, ret_code (-1412628479))])
  /\ exn_kind (KeyError (-1412628479)) = None.
Proof. repeat split; vm_compute; reflexivity. Qed.

(** C6, as first stated, fails: with the pin given by name the library is
    called, to look the name up, before the direction is rejected. *)
Lemma pin_get_state_lookup_before_rejection :
  (forall d, PyStr "bogus" <> PyStr (direction_name d))
  /\ pin_get_state replay 1 (PinName "PA9") (PyStr "bogus") [ret_code 0]
     = (Raise (ValueError [PyStr "Invalid pintype"; PyStr "bogus"]), [],
        [(jtagcore_get_pin_id 1 "PA9", ret_code 0)])
  /\ trace_of (pin_get_state replay 1 (PinName "PA9") (PyStr "bogus") [ret_code 0]) <> [].
Proof.
  split; [intros []; discriminate |]. split; [reflexivity | discriminate].
Qed.

Lemma pin_get_state_direction_witness :
  (forall d, PyStr "bogus" <> PyStr (direction_name d))
  /\ pin_get_state replay 1 (PinNum 4) (PyStr "bogus") [ret_code 1]
     = (Raise (ValueError [PyStr "Invalid pintype"; PyStr "bogus"]), [ret_code 1], [])
  /\ pin_get_state replay 1 (PinName "PA9") (PyStr "oe") [ret_code 4; ret_code 1]
     = (Ok 1, [],
        [(jtagcore_get_pin_id 1 "PA9", ret_code 4);
         (jtagcore_get_pin_state 1 4 OE, ret_code 1)]).
Proof.
  assert (forall d, PyStr "bogus" <> PyStr (direction_name d)) as Hd
    by (intros []; discriminate).
  split; [exact Hd |]. split.
  - exact (proj1 (proj2 (proj1 (pin_get_state_direction replay 1 (PinNum 4)
                                  (PyStr "bogus") [ret_code 1]) Hd)) 4 eq_refl).
  - exact (proj2 (pin_get_state_direction replay 1 (PinName "PA9") (PyStr "oe")
                    [ret_code 4; ret_code 1])
             DirOE 4 [ret_code 1] [(jtagcore_get_pin_id 1 "PA9", ret_code 4)]
             eq_refl eq_refl).
Defined.

Lemma bsdl_unreadable_source_witness :
  no_files "bsdl_files/CortexMx.bsd" = false
  /\ bsdl_attach replay no_files "bsdl_files/CortexMx.bsd" 1 [ret_code 0]
     = (Raise (IOError [PyStr "Check path: bsdl_files/CortexMx.bsd";
                        PyStr "bsdl_files/CortexMx.bsd"]), [ret_code 0], [])
  /\ bsdl_devid replay no_files "bsdl_files/CortexMx.bsd" [ret_code 0]
     = (Raise (IOError [PyStr "Check path: bsdl_files/CortexMx.bsd";
                        PyStr "bsdl_files/CortexMx.bsd"]), [ret_code 0], []).
Proof.
  split; [reflexivity |].
  pose proof (bsdl_unreadable_source replay no_files "bsdl_files/CortexMx.bsd" 1
                [ret_code 0] eq_refl) as (H1 & H2 & _).
  split; [exact H1 | exact H2].
Defined.



Lemma get_probe_names_keyed_by_name_witness :
  result_of (get_probe_names replay
               [ret_code 1; ret_code 2; mkRet 0 "USB JLINK ARM" 0;
                mkRet 0 "USB JLINK ARM" 0])
  = Ok {[ "USB JLINK ARM"%string := 0x0001 ]}
  /\ (size ({[ "USB JLINK ARM"%string := 1%Z ]} : gmap string Z) < 2)%nat.
Proof.
  assert (result_of (get_probe_names replay
               [ret_code 1; ret_code 2; mkRet 0 "USB JLINK ARM" 0;
                mkRet 0 "USB JLINK ARM" 0])
          = Ok {[ "USB JLINK ARM"%string := 1 ]}) as Hres
    by (vm_compute; reflexivity).
  split; [exact Hres |].
  pose proof (get_probe_names_keyed_by_name replay _ _ Hres) as (_ & _ & _ & Hlt & _).
  apply Hlt. intros Hnd. vm_compute in Hnd.
  apply NoDup_cons in Hnd as [Hnotin _]. apply Hnotin. left.
Defined.

Lemma scan_without_session_witness :
  Engine.session_open Engine.closed = false
  /\ scan Engine.step false Engine.closed
     = (Raise (IOError [PyStr "Exception: JTAG_CORE_NO_PROBE"]), Engine.closed,
        [(jtagcore_push_and_pop_chain 0, ret_code (-5))]).
Proof.
  split; [reflexivity |].
  exact (proj1 (scan_without_session false Engine.closed eq_refl)).
Defined.

Lemma pin_name_round_trip_witness :
  Engine.descriptors Engine.demo !! 1 = Some Engine.demo_pins
  /\ "PA11"%string ∈ Engine.pin_name <$> Engine.demo_pins
  /\ result_of (name_id_name_id Engine.step 1 "PA11" Engine.demo)
     = result_of (pin_get_id Engine.step 1 (Str "PA11") Engine.demo).
Proof.
  assert (Engine.descriptors Engine.demo !! 1 = Some Engine.demo_pins) as Hd
    by reflexivity.
  assert ("PA11"%string ∈ Engine.pin_name <$> Engine.demo_pins) as Hn
    by (right; left).
  split; [exact Hd |]. split; [exact Hn |].
  destruct (pin_name_round_trip Engine.demo 1 Engine.demo_pins "PA11" Hd Hn)
    as (pinid & pintype & _ & _ & H).
  exact H.
Defined.


(** * Further properties of the binding *)

(** ** Return codes *)

Section ReturnCodes.

Context {LibState : Type}.
Variable lib : LibState -> LibCall -> LibRet * LibState.
Variable path_exists : string -> bool.
Implicit Types (s : LibState) (c : LibCall).

(** X1.  [_check_return] never calls the library and never changes its
    state; it returns normally exactly for the non-negative values, raises
    an [IOError] whose message is "Exception: " followed by the name of the
    code for -10 .. -1, and fails with a [KeyError] on the value itself for
    anything below -10. *)
Theorem check_return_cases code s :
  state_of (_check_return code s) = s
  /\ trace_of (_check_return code s) = []
  /\ (result_of (_check_return code s) = Ok tt <-> 0 <= code)
  /\ (-10 <= code <= -1 ->
      exists name, error_codes code = Some name
        /\ result_of (_check_return code s)
           = Raise (IOError [PyStr ("Exception: " +:+ name)]))
  /\ (code < -10 -> result_of (_check_return code s) = Raise (KeyError code)).
Proof.
  rewrite check_return_outcome. unfold result_of, state_of, trace_of. cbn [fst snd].
  split; [reflexivity |]. split; [reflexivity |]. split; [| split].
  - unfold outcome. destruct (Z.ltb_spec code 0) as [Hlt | Hge]; split;
      intros; (reflexivity || discriminate || lia).
  - intros H. destruct (check_exn_kind code H) as (name & Hn & He & _).
    exists name. split; [exact Hn |]. rewrite outcome_neg by lia. rewrite He. reflexivity.
  - intros H. rewrite outcome_neg by lia. rewrite check_exn_unknown by exact H.
    reflexivity.
Qed.

Lemma checked_value_run c s :
  bind (call lib c) (fun r => bind (_check_return (rv r)) (fun _ => ret (rv r))) s
  = (checked_value (lib s c).1, (lib s c).2, [(c, (lib s c).1)]).
Proof.
  rewrite bind_run. unfold call. destruct (lib s c) as [r s1]. cbn [fst snd].
  rewrite bind_run, check_return_outcome. unfold outcome, checked_value.
  destruct (rv r <? 0); reflexivity.
Qed.

Lemma checked_value_nonneg r v : checked_value r = Ok v -> v = rv r /\ 0 <= v.
Proof.
  unfold checked_value. destruct (Z.ltb_spec (rv r) 0) as [Hlt | Hge];
    [discriminate |].
  intros E. injection E as <-. split; [reflexivity | exact Hge].
Qed.

(** X3.  The value accessors [scan_init_chain], [get_number_devices],
    [get_devid], [pins_get_number] and [pin_get_id] each issue exactly one
    library call and hand back the library's return value unchanged when it
    is non-negative, raising otherwise; so none of them can ever return a
    negative number, a device id read back as a negative C int included. *)
Theorem accessors_return_checked_value device_number pinname s :
  let run_of c := (checked_value (lib s c).1, (lib s c).2, [(c, (lib s c).1)]) in
  scan_init_chain lib s = run_of jtagcore_scan_and_init_chain
  /\ get_number_devices lib s = run_of jtagcore_get_number_of_devices
  /\ get_devid lib device_number s = run_of (jtagcore_get_dev_id device_number)
  /\ pins_get_number lib device_number s
     = run_of (jtagcore_get_number_of_pins device_number)
  /\ pin_get_id lib device_number pinname s
     = run_of (jtagcore_get_pin_id device_number
                 (match pinname with Str n => n | Bytes b => b end))
  /\ (forall r v, checked_value r = Ok v -> v = rv r /\ 0 <= v).
Proof.
  cbv zeta. repeat split; try apply checked_value_run;
    match goal with H : checked_value _ = Ok _ |- _ =>
      apply (checked_value_nonneg _ _ H) end.
Qed.

(** X13.  When the descriptor path exists, [bsdl_attach] and [bsdl_devid]
    each issue exactly one library call, with the path unchanged;
    [bsdl_attach] then fails or succeeds as the library's return value
    says, and [bsdl_devid] returns that value. *)
Theorem bsdl_existing_path filepath device_number s :
  path_exists filepath = true ->
  let c1 := jtagcore_loadbsdlfile filepath device_number in
  let c2 := jtagcore_get_bsdl_id filepath in
  bsdl_attach lib path_exists filepath device_number s
  = (outcome (rv (lib s c1).1), (lib s c1).2, [(c1, (lib s c1).1)])
  /\ bsdl_devid lib path_exists filepath s
     = (checked_value (lib s c2).1, (lib s c2).2, [(c2, (lib s c2).1)]).
Proof.
  intros H. cbv zeta. unfold bsdl_attach, bsdl_devid. rewrite H. cbn [negb].
  split; [apply checked_call_run | apply checked_value_run].
Qed.

End ReturnCodes.

(** X2.  The table of error codes is defined exactly on 0 .. -10 and gives
    different names to different codes, so the message of an [IOError]
    raised by [_check_return] determines the code the library returned. *)
Theorem error_codes_table :
  (forall code, is_Some (error_codes code) <-> -10 <= code <= 0)
  /\ (forall c1 c2 name,
        error_codes c1 = Some name -> error_codes c2 = Some name -> c1 = c2).
Proof.
  assert (forall code, is_Some (error_codes code) -> -10 <= code <= 0) as Hdom.
  { intros code [name H]. destruct code as [| p | p]; [lia | discriminate |].
    do 4 (destruct p as [p | p |]; try discriminate; try lia). }
  assert (forall code, -10 <= code <= 0 ->
            code = 0 \/ code = -1 \/ code = -2 \/ code = -3 \/ code = -4 \/ code = -5
            \/ code = -6 \/ code = -7 \/ code = -8 \/ code = -9 \/ code = -10) as Hcases
    by (intros; lia).
  split.
  - intros code. split; [apply Hdom |]. intros H.
    destruct (Hcases code H) as [-> | H']; [eexists; reflexivity |].
    repeat (destruct H' as [-> | H']; [eexists; reflexivity |]).
    subst. eexists. reflexivity.
  - intros c1 c2 name H1 H2.
    pose proof (Hcases c1 (Hdom c1 (ex_intro _ name H1))) as E1.
    pose proof (Hcases c2 (Hdom c2 (ex_intro _ name H2))) as E2.
    repeat (destruct E1 as [-> | E1]); try subst c1;
      repeat (destruct E2 as [-> | E2]); try subst c2;
      try reflexivity; cbn in H1, H2; congruence.
Qed.

(** ** Pin properties, pin writes, scan mode *)

Lemma land_pow2_eqb (pt k : Z) :
  0 <= k -> (Z.land pt (2 ^ k) =? 0) = negb (Z.testbit pt k).
Proof.
  intros Hk.
  assert (Z.land pt (2 ^ k) = if Z.testbit pt k then 2 ^ k else 0) as E.
  { apply Z.bits_inj'. intros n Hn. rewrite Z.land_spec, Z.pow2_bits_eqb by exact Hk.
    destruct (Z.eqb_spec k n) as [-> | Hne].
    - destruct (Z.testbit pt n); [| rewrite Z.bits_0; reflexivity].
      rewrite Z.pow2_bits_eqb, Z.eqb_refl by exact Hn. reflexivity.
    - rewrite andb_false_r. destruct (Z.testbit pt k); [| rewrite Z.bits_0; reflexivity].
      rewrite Z.pow2_bits_eqb by exact Hk. symmetry. apply Z.eqb_neq. exact Hne. }
  rewrite E. destruct (Z.testbit pt k); [| reflexivity].
  apply Z.eqb_neq. apply Z.pow_nonzero; lia.
Qed.

Section PinMethods.

Context {LibState : Type}.
Variable lib : LibState -> LibCall -> LibRet * LibState.
Implicit Types (s : LibState) (c : LibCall).

Lemma bind_ret_l {A B} (a : A) (k : A -> M LibState B) s :
  bind (ret a) k s = k a s.
Proof. unfold bind, ret. destruct (k a s) as [[r s2] t2]. reflexivity. Qed.

(** X4.  On success [pin_get_properties] returns the name the library
    left in the buffer and a type list decoded from the three low bits of
    the type mask: "input" for bit 0, "output" for bit 1 and "oe" for bit 2,
    always in that order; all other bits of the mask are ignored. *)
Theorem pin_get_properties_decodes device_number pinid s :
  let c := jtagcore_get_pin_properties device_number pinid 500 in
  let r := (lib s c).1 in
  0 <= rv r ->
  pin_get_properties lib device_number (PinNum pinid) s
  = (Ok (buf_value r, capabilities (pt_value r)), (lib s c).2, [(c, r)]).
Proof.
  cbv zeta. intros H. unfold pin_get_properties. rewrite bind_run. unfold call.
  destruct (lib s _) as [r s1]. cbn [fst snd] in *.
  rewrite bind_run, check_return_outcome, (outcome_nonneg _ H).
  assert ((Z.land (pt_value r) INPUT =? 0) = negb (Z.testbit (pt_value r) 0)) as E0
    by (apply (land_pow2_eqb _ 0); lia).
  assert ((Z.land (pt_value r) OUTPUT =? 0) = negb (Z.testbit (pt_value r) 1)) as E1
    by (apply (land_pow2_eqb _ 1); lia).
  assert ((Z.land (pt_value r) OE =? 0) = negb (Z.testbit (pt_value r) 2)) as E2
    by (apply (land_pow2_eqb _ 2); lia).
  rewrite E0, E1, E2. unfold capabilities.
  destruct (Z.testbit (pt_value r) 0), (Z.testbit (pt_value r) 1),
    (Z.testbit (pt_value r) 2); reflexivity.
Qed.

(** X5.  [pin_get_properties] refuses a pin given by name with a
    [ValueError] before any library call, and with a numeric pin id whose
    lookup the library rejects it raises the library's error without
    building a result. *)
Theorem pin_get_properties_errors device_number s :
  (forall name,
     pin_get_properties lib device_number (PinName name) s
     = (Raise (ValueError [PyStr "pinid must be integer for thiscall"]), s, []))
  /\ (forall pinid,
        let c := jtagcore_get_pin_properties device_number pinid 500 in
        rv (lib s c).1 < 0 ->
        pin_get_properties lib device_number (PinNum pinid) s
        = (Raise (check_exn (rv (lib s c).1)), (lib s c).2, [(c, (lib s c).1)])).
Proof.
  split; [reflexivity |]. intros pinid. cbv zeta. intros H.
  unfold pin_get_properties. rewrite bind_run. unfold call.
  destruct (lib s _) as [r s1]. cbn [fst snd] in *.
  rewrite bind_run, check_return_outcome, (outcome_neg _ H). reflexivity.
Qed.

Lemma py_eq_int v n : py_eq v (PyInt n) = true <-> py_int_of v = Some n.
Proof.
  unfold py_eq. cbn [py_int_of]. destruct (py_int_of v) as [x |] eqn:E.
  - rewrite Z.eqb_eq. split; congruence.
  - destruct v as [| [|] | m | u | u]; cbn in E; try discriminate;
      split; discriminate.
Qed.

Lemma py_eq_bool v b :
  py_eq v (PyBool b) = true <-> py_int_of v = Some (if b then 1 else 0).
Proof.
  rewrite <- py_eq_int. unfold py_eq. destruct b; reflexivity.
Qed.

Lemma py_eq_none v : py_eq v PyNone = true <-> v = PyNone.
Proof.
  destruct v as [| [|] | n | u | u]; unfold py_eq; cbn [py_int_of];
    split; (reflexivity || discriminate).
Qed.

Lemma py_int_of_cases v n :
  py_int_of v = Some n ->
  v = PyInt n \/ (v = PyBool true /\ n = 1) \/ (v = PyBool false /\ n = 0).
Proof.
  destruct v as [| [|] | m | u | u]; cbn; intros H; try discriminate;
    injection H as <-; auto.
Qed.

(** A state that is none of the accepted ones matches no branch. *)
Lemma logical_state_rejected state :
  state ∉ accepted_states -> logical_state state = None.
Proof.
  intros H. unfold accepted_states in H.
  repeat (apply not_elem_of_cons in H as [? H]).
  assert (forall n, (n = 1 \/ n = 0 \/ n = -1) -> py_int_of state <> Some n) as Hint.
  { intros n Hn E. apply py_int_of_cases in E as [E | [[E En] | [E En]]];
      destruct Hn as [Hn | [Hn | Hn]]; subst; congruence. }
  assert (forall t, state <> PyStr t -> py_eq state (PyStr t) = false) as Hstr
    by (intros t; apply py_eq_str_false).
  assert (forall n, (n = 1 \/ n = 0 \/ n = -1) -> py_eq state (PyInt n) = false) as Hi.
  { intros n Hn. destruct (py_eq state (PyInt n)) eqn:E; [| reflexivity].
    apply py_eq_int in E. exfalso. exact (Hint n Hn E). }
  assert (forall b, py_eq state (PyBool b) = false) as Hb.
  { intros b. destruct (py_eq state (PyBool b)) eqn:E; [| reflexivity].
    apply py_eq_bool in E. exfalso. destruct b; [apply (Hint 1) | apply (Hint 0)]; auto. }
  assert (py_eq state PyNone = false) as Hn.
  { destruct (py_eq state PyNone) eqn:E; [| reflexivity].
    apply py_eq_none in E. congruence. }
  unfold logical_state.
  rewrite !Hb, !Hi, !Hstr, Hn by auto. reflexivity.
Qed.

(** X6.  For a state argument that is none of True, 1, "high", False, 0,
    "low", None, -1 and "high-z", [pin_set_state] fails with
    [ValueError("Invalid state", state)] once the pin id is resolved (a
    failing name lookup is reported instead); it writes no register and
    issues no scan, whatever [scan_now] is. *)
Theorem pin_set_state_invalid_state device pinid state (scan_now : bool) s :
  state ∉ accepted_states ->
  match resolve_pinid lib device pinid s with
  | (Ok _, s1, t1) =>
      pin_set_state lib device pinid state scan_now s
      = (Raise (ValueError [PyStr "Invalid state"; state]), s1, t1)
  | (Raise e, s1, t1) =>
      pin_set_state lib device pinid state scan_now s = (Raise e, s1, t1)
  end
  /\ trace_of (pin_set_state lib device pinid state scan_now s)
     = trace_of (resolve_pinid lib device pinid s)
  /\ register_writes (trace_of (pin_set_state lib device pinid state scan_now s)) = [].
Proof.
  intros H. apply logical_state_rejected in H. unfold logical_state in H.
  assert (pin_set_state lib device pinid state scan_now s
          = match resolve_pinid lib device pinid s with
            | (Ok _, s1, t1) =>
                (Raise (ValueError [PyStr "Invalid state"; state]), s1, t1)
            | (Raise e, s1, t1) => (Raise e, s1, t1)
            end) as E.
  { unfold pin_set_state. rewrite bind_run.
    destruct (resolve_pinid lib device pinid s) as [[[p | e] s1] t1]; [| reflexivity].
    destruct (py_eq state (PyBool true) || py_eq state (PyInt 1)
              || py_eq state (PyStr "high")); [discriminate |].
    destruct (py_eq state (PyBool false) || py_eq state (PyInt 0)
              || py_eq state (PyStr "low")); [discriminate |].
    destruct (py_eq state PyNone || py_eq state (PyInt (-1))
              || py_eq state (PyStr "high-z")); [discriminate |].
    rewrite bind_run. cbn. rewrite app_nil_r. reflexivity. }
  pose proof (resolve_pinid_no_write lib device pinid s) as Hw.
  rewrite E. destruct (resolve_pinid lib device pinid s) as [[[p | e] s1] t1];
    repeat split; exact Hw.
Qed.

(** X7.  When the pin id resolves and the library accepts both register
    writes, [pin_set_state] ends without any further call if [scan_now] is
    false, and otherwise issues one scan in read-and-write mode (mode 0)
    after the two writes and fails or succeeds as that scan does. *)
Theorem pin_set_state_then_scan device pinid state (scan_now : bool) l s p s0 t0 :
  logical_state state = Some l ->
  resolve_pinid lib device pinid s = (Ok p, s0, t0) ->
  let w1 := jtagcore_set_pin_state device p OE (oe_bit l) in
  let w2 := jtagcore_set_pin_state device p OUTPUT (output_bit l) in
  let c3 := jtagcore_push_and_pop_chain 0 in
  let r1 := (lib s0 w1).1 in
  let s1 := (lib s0 w1).2 in
  let r2 := (lib s1 w2).1 in
  let s2 := (lib s1 w2).2 in
  0 <= rv r1 -> 0 <= rv r2 ->
  pin_set_state lib device pinid state scan_now s
  = if scan_now
    then (outcome (rv (lib s2 c3).1), (lib s2 c3).2,
          t0 ++ [(w1, r1); (w2, r2); (c3, (lib s2 c3).1)])
    else (Ok tt, s2, t0 ++ [(w1, r1); (w2, r2)]).
Proof.
  intros Hl Hres. cbv zeta. intros H1 H2.
  rewrite (pin_set_state_unfold lib _ _ _ _ l Hl).
  rewrite bind_run, Hres, bind_run, write_pair_run.
  apply Z.ltb_ge in H1. rewrite H1. rewrite (outcome_nonneg _ H2).
  destruct scan_now.
  - rewrite (scan_run lib false). reflexivity.
  - reflexivity.
Qed.

(** X14.  Naming the pin by a string is the same as looking the name up
    with [pin_get_id] and then calling the method with the numeric id, for
    [pin_get_state] and for [pin_set_state]. *)
Theorem named_pin_is_lookup_then_numeric device name pintype state (scan_now : bool) s :
  pin_get_state lib device (PinName name) pintype s
  = bind (pin_get_id lib device (Str name))
      (fun pinid => pin_get_state lib device (PinNum pinid) pintype) s
  /\ pin_set_state lib device (PinName name) state scan_now s
     = bind (pin_get_id lib device (Str name))
         (fun pinid => pin_set_state lib device (PinNum pinid) state scan_now) s.
Proof.
  split.
  - unfold pin_get_state. cbn [resolve_pinid]. rewrite !bind_run.
    destruct (pin_get_id lib device (Str name) s) as [[[p | e] s1] t1]; [| reflexivity].
    rewrite bind_ret_l. reflexivity.
  - unfold pin_set_state. cbn [resolve_pinid]. rewrite !bind_run.
    destruct (pin_get_id lib device (Str name) s) as [[[p | e] s1] t1]; [| reflexivity].
    rewrite bind_ret_l. reflexivity.
Qed.

(** [set_scan_mode] for any mode argument. *)
Lemma set_scan_mode_any device_number mode (scan_now : bool) s :
  let c := jtagcore_set_scan_mode device_number (translated_mode mode) in
  let r := (lib s c).1 in
  let s1 := (lib s c).2 in
  let c' := jtagcore_push_and_pop_chain 0 in
  set_scan_mode lib device_number mode scan_now s
  = if rv r <? 0 then (Raise (check_exn (rv r)), s1, [(c, r)])
    else if scan_now
         then (outcome (rv (lib s1 c').1), (lib s1 c').2, [(c, r); (c', (lib s1 c').1)])
         else (Ok tt, s1, [(c, r)]).
Proof.
  cbv zeta. unfold set_scan_mode. fold (translated_mode mode).
  rewrite bind_run. unfold call.
  destruct (lib s (jtagcore_set_scan_mode device_number (translated_mode mode)))
    as [r s1].
  cbn [fst snd]. rewrite bind_run, check_return_outcome. unfold outcome.
  destruct (rv r <? 0); [reflexivity |].
  destruct scan_now; [| reflexivity].
  rewrite (scan_run lib false). reflexivity.
Qed.


(** X9.  [set_scan_mode] issues the mode-set call first; if the library
    rejects it the method raises and no scan follows; if it is accepted a
    scan in mode 0 follows exactly when [scan_now] is set, and the method
    then fails or succeeds as the scan does. *)
Theorem set_scan_mode_then_scan device_number mode (scan_now : bool) s :
  let c := jtagcore_set_scan_mode device_number (translated_mode mode) in
  let c' := jtagcore_push_and_pop_chain 0 in
  let run := set_scan_mode lib device_number mode scan_now s in
  (rv (lib s c).1 < 0 ->
     run = (Raise (check_exn (rv (lib s c).1)), (lib s c).2, [(c, (lib s c).1)]))
  /\ (0 <= rv (lib s c).1 -> scan_now = false ->
      run = (Ok tt, (lib s c).2, [(c, (lib s c).1)]))
  /\ (0 <= rv (lib s c).1 -> scan_now = true ->
      run = (outcome (rv (lib (lib s c).2 c').1), (lib (lib s c).2 c').2,
             [(c, (lib s c).1); (c', (lib (lib s c).2 c').1)]))
  /\ register_writes (trace_of run) = [].
Proof.
  cbv zeta. rewrite set_scan_mode_any.
  destruct (Z.ltb_spec (rv (lib s (jtagcore_set_scan_mode device_number
                                      (translated_mode mode))).1) 0) as [Hneg | Hpos].
  - repeat split; intros; (reflexivity || lia).
  - destruct scan_now; repeat split; intros; (reflexivity || discriminate || lia).
Qed.

End PinMethods.

(** ** More on probe enumeration *)

Lemma composite_id_decode d i :
  0 <= i < 256 ->
  Z.shiftr (Z.lor (Z.shiftl d 8) i) 8 = d
  /\ Z.land (Z.lor (Z.shiftl d 8) i) 255 = i.
Proof.
  intros Hi. split.
  - rewrite Z.shiftr_lor, Z.shiftr_shiftl_l by lia.
    replace (8 - 8) with 0 by lia. rewrite Z.shiftl_0_r.
    rewrite (Z.shiftr_div_pow2 i 8) by lia.
    rewrite Z.div_small by (change (2 ^ 8) with 256; lia).
    apply Z.lor_0_r.
  - change 255 with (Z.ones 8). rewrite Z.land_lor_distr_l.
    rewrite !Z.land_ones by lia. rewrite Z.shiftl_mul_pow2 by lia.
    rewrite Z.mod_mul by (change (2 ^ 8) with 256; lia).
    rewrite Z.mod_small by (change (2 ^ 8) with 256; lia).
    apply Z.lor_0_l.
Qed.

Lemma composite_id_inj d i d' i' :
  0 <= i < 256 -> 0 <= i' < 256 ->
  Z.lor (Z.shiftl d 8) i = Z.lor (Z.shiftl d' 8) i' -> d = d' /\ i = i'.
Proof.
  intros Hi Hi' E.
  destruct (composite_id_decode d i Hi) as [H1 H2].
  destruct (composite_id_decode d' i' Hi') as [H1' H2'].
  rewrite E in H1, H2. split; congruence.
Qed.

Lemma composite_ids_NoDup counts :
  NoDup counts.*1 -> Forall (fun dn => dn.2 <= 256) counts ->
  NoDup (composite_ids counts).
Proof.
  induction counts as [| [d n] counts IH]; intros Hnd Hle; [constructor |].
  cbn in Hnd. apply NoDup_cons in Hnd as [Hd Hnd].
  apply Forall_cons in Hle as [Hn Hle]. cbn [snd] in Hn.
  change (composite_ids ((d, n) :: counts))
    with (((fun i => Z.lor (Z.shiftl d 8) i) <$> seqZ 0 n) ++ composite_ids counts).
  apply NoDup_app. split; [| split; [| apply IH; assumption]].
  - apply NoDup_fmap_2_strong; [| apply NoDup_seqZ].
    intros x y Hx Hy E. apply elem_of_seqZ in Hx, Hy.
    apply (composite_id_inj d x d y); (lia || exact E).
  - intros x Hx Hx'. apply list_elem_of_fmap in Hx as (i & -> & Hi).
    apply elem_of_seqZ in Hi.
    apply composite_ids_elem in Hx' as (d' & n' & i' & Hin & Hi' & E).
    assert (n' <= 256) as Hn'.
    { rewrite Forall_forall in Hle. apply (Hle (d', n') Hin). }
    destruct (composite_id_inj d i d' i') as [-> _]; [lia | lia | exact E |].
    apply Hd. apply list_elem_of_fmap. exists (d', n'). split; [reflexivity | exact Hin].
Qed.

Lemma record_all_NoDup_lookup asg k v :
  NoDup asg.*1 -> (record_all asg ∅ !! k = Some v <-> (k, v) ∈ asg).
Proof.
  intros Hnd. split.
  - intros H. apply record_all_lookup_Some in H as [H | H]; [exact H |].
    rewrite lookup_empty in H. discriminate.
  - intros H. apply list_elem_of_split in H as (l1 & l2 & ->).
    apply record_all_last. rewrite fmap_app in Hnd.
    apply NoDup_app in Hnd as (_ & _ & Hnd). cbn in Hnd.
    apply NoDup_cons in Hnd as [Hk _]. exact Hk.
Qed.

Lemma record_all_NoDup_size asg :
  NoDup asg.*1 -> size (record_all asg ∅) = length asg.
Proof.
  induction asg as [| [k v] asg IH] using rev_ind; intros Hnd;
    [apply map_size_empty |].
  rewrite fmap_app in Hnd. apply NoDup_app in Hnd as (Hnd & Hdisj & _).
  rewrite record_all_snoc, length_app. cbn [length].
  assert (record_all asg ∅ !! k = None) as Hnone.
  { destruct (record_all asg ∅ !! k) as [v0 |] eqn:E; [| reflexivity].
    exfalso. assert (k ∈ asg.*1) as Hk by (apply record_all_is_Some; eauto).
    apply (Hdisj k Hk). left. }
  rewrite (map_size_insert_None _ _ _ Hnone), (IH Hnd). lia.
Qed.

Section MoreEnumeration.

Context {LibState : Type}.
Variable lib : LibState -> LibCall -> LibRet * LibState.
Implicit Types (s : LibState) (probes : gmap string Z) (c : LibCall).

Lemma calls_app (t1 t2 : Trace) : calls (t1 ++ t2) = calls t1 ++ calls t2.
Proof. apply fmap_app. Qed.

(** The inner loop only asks for names. *)
Lemma name_loop_calls d (l : list Z) probes s :
  Forall (fun c => is_enumeration_call c = true)
    (calls (trace_of (for_each l probes (name_body lib d) s))).
Proof.
  revert probes s. induction l as [| i l IH]; intros probes s; [constructor |].
  rewrite for_each_cons_run, name_body_run.
  specialize (IH (<[buf_value (lib s (jtagcore_get_probe_name (Z.lor (Z.shiftl d 8) i))).1
                     := Z.lor (Z.shiftl d 8) i]> probes)
                (lib s (jtagcore_get_probe_name (Z.lor (Z.shiftl d 8) i))).2).
  destruct (for_each l _ (name_body lib d) _) as [[res s2] t2].
  unfold trace_of in *. cbn [snd] in *. rewrite calls_app.
  apply Forall_app. split; [| exact IH]. repeat constructor.
Qed.

(** The outer loop: it completes exactly when no reported count is
    negative, it raises the error of a negative count, and it issues
    enumeration calls only. *)
Lemma driver_loop_outcome (l : list Z) probes s :
  let run := for_each l probes (driver_body lib) s in
  ((exists probes', result_of run = Ok probes')
   <-> Forall (fun dn => 0 <= dn.2) (probe_counts (trace_of run)))
  /\ (forall e, result_of run = Raise e ->
        exists d n, (d, n) ∈ probe_counts (trace_of run) /\ n < 0 /\ e = check_exn n)
  /\ Forall (fun c => is_enumeration_call c = true) (calls (trace_of run)).
Proof.
  revert probes s. induction l as [| d l IH]; intros probes s; cbv zeta.
  - split; [| split].
    + split; [intros _; constructor | intros _; eexists; reflexivity].
    + discriminate.
    + constructor.
  - rewrite for_each_cons_run, driver_body_run.
    set (r := (lib s _).1). set (s1 := (lib s _).2).
    destruct (Z.ltb_spec (rv r) 0) as [Hneg | Hpos].
    + unfold result_of, trace_of. cbn [fst snd].
      change (probe_counts [(jtagcore_get_number_of_probes d, r)]) with [(d, rv r)].
      split; [| split].
      * split; [intros [? ?]; discriminate |].
        intros H. apply Forall_inv in H. cbn [snd] in H. lia.
      * intros e E. injection E as <-. exists d, (rv r).
        split; [left | split; [exact Hneg | reflexivity]].
      * repeat constructor.
    + pose proof (name_loop_run lib d (seqZ 0 (rv r)) probes s1) as Hin.
      pose proof (name_loop_calls d (seqZ 0 (rv r)) probes s1) as Hcalls.
      cbv zeta in Hin. destruct Hin as (Hin1 & Hin2 & _).
      destruct (for_each (seqZ 0 (rv r)) probes (name_body lib d) s1)
        as [[res s2] t2].
      unfold result_of, trace_of in Hin1, Hin2, Hcalls. cbn [fst snd] in *.
      subst res.
      specialize (IH (record_all (assignments t2) probes) s2).
      cbv zeta in IH. destruct IH as (IH1 & IH2 & IH3).
      destruct (for_each l _ (driver_body lib) s2) as [[res3 s3] t3].
      unfold result_of, trace_of in *. cbn [fst snd] in *.
      change (((jtagcore_get_number_of_probes d, r) :: t2) ++ t3)
        with ([(jtagcore_get_number_of_probes d, r)] ++ t2 ++ t3).
      rewrite !probe_counts_app, !calls_app, Hin2. cbn [app].
      change (probe_counts [(jtagcore_get_number_of_probes d, r)]) with [(d, rv r)].
      cbn [app]. split; [| split].
      * rewrite Forall_cons. cbn [snd]. rewrite IH1. split; [intros H; split; [lia | exact H] | intros [_ H]; exact H].
      * intros e E. destruct (IH2 e E) as (d' & n & Hin & Hn & He).
        exists d', n. split; [right; exact Hin | split; assumption].
      * apply Forall_app. split; [repeat constructor |].
        apply Forall_app. split; assumption.
Qed.

(** X10.  [get_probe_names] completes exactly when the number of drivers
    and every instance count the library reports are non-negative; when it
    fails, the error raised is the one of a negative count it received
    (the names are never a cause); and with no driver at all it returns an
    empty mapping after that single call. *)
Theorem get_probe_names_outcome s :
  let c0 := jtagcore_get_number_of_probes_drv in
  let run := get_probe_names lib s in
  ((exists probes, result_of run = Ok probes)
   <-> 0 <= rv (lib s c0).1
       /\ Forall (fun dn => 0 <= dn.2) (probe_counts (trace_of run)))
  /\ (forall e, result_of run = Raise e ->
        exists n, n < 0 /\ e = check_exn n
          /\ (n = rv (lib s c0).1 \/ exists d, (d, n) ∈ probe_counts (trace_of run)))
  /\ (rv (lib s c0).1 = 0 -> run = (Ok ∅, (lib s c0).2, [(c0, (lib s c0).1)])).
Proof.
  cbv zeta. rewrite get_probe_names_run.
  set (r := (lib s _).1). set (s1 := (lib s _).2).
  destruct (Z.ltb_spec (rv r) 0) as [Hneg | Hpos].
  - unfold result_of, trace_of. cbn [fst snd]. split; [| split].
    + split; [intros [? ?]; discriminate | intros [? _]; lia].
    + intros e E. injection E as <-. exists (rv r).
      split; [exact Hneg | split; [reflexivity | left; reflexivity]].
    + intros E. lia.
  - pose proof (driver_loop_outcome (seqZ 0 (rv r)) ∅ s1) as H.
    cbv zeta in H. destruct H as (H1 & H2 & _).
    split; [| split].
    + destruct (for_each _ _ (driver_body lib) s1) as [[res s2] t2].
      unfold result_of, trace_of in *. cbn [fst snd] in *.
      change (probe_counts ((jtagcore_get_number_of_probes_drv, r) :: t2))
        with (probe_counts t2).
      rewrite H1. split; [intros H; split; [exact Hpos | exact H] | intros [_ H]; exact H].
    + destruct (for_each _ _ (driver_body lib) s1) as [[res s2] t2].
      unfold result_of, trace_of in *. cbn [fst snd] in *.
      intros e E. destruct (H2 e E) as (d & n & Hin & Hn & He).
      exists n. split; [exact Hn | split; [exact He |]]. right. exists d. exact Hin.
    + intros E. rewrite E. reflexivity.
Qed.

(** X11.  When the enumerated instances all report different names, the
    result of [get_probe_names] loses nothing: it has one entry per
    instance, and a name maps to an identifier exactly when that instance
    was enumerated under that name. *)
Theorem get_probe_names_distinct_names s probes :
  result_of (get_probe_names lib s) = Ok probes ->
  let asg := assignments (trace_of (get_probe_names lib s)) in
  NoDup asg.*1 ->
  size probes = length asg
  /\ (forall name id, probes !! name = Some id <-> (name, id) ∈ asg).
Proof.
  intros Hres. cbv zeta. intros Hnd.
  destruct (get_probe_names_trace lib s) as [_ Hok]. cbv zeta in Hok.
  destruct (Hok _ Hres) as [-> _]. split.
  - apply record_all_NoDup_size. exact Hnd.
  - intros name id. apply record_all_NoDup_lookup. exact Hnd.
Qed.

(** X12.  When [get_probe_names] completes and no driver reports more
    than 256 instances, the identifiers it asks about are pairwise
    different, and driver and instance index are recovered from an
    identifier by [>> 8] and [& 255].  Beyond 256 instances identifiers
    collide: instance 256 of driver 0 gets the identifier of instance 0 of
    driver 1. *)
Theorem get_probe_names_ids_distinct s probes :
  result_of (get_probe_names lib s) = Ok probes ->
  Forall (fun dn => dn.2 <= 256)
    (probe_counts (trace_of (get_probe_names lib s))) ->
  NoDup (probe_queries (trace_of (get_probe_names lib s)))
  /\ (forall d i, 0 <= i < 256 ->
        Z.shiftr (Z.lor (Z.shiftl d 8) i) 8 = d
        /\ Z.land (Z.lor (Z.shiftl d 8) i) 255 = i)
  /\ ~ NoDup (composite_ids [(0, 257); (1, 1)]).
Proof.
  intros Hres Hle.
  destruct (get_probe_names_trace lib s) as [Hq Hok]. cbv zeta in Hok.
  destruct (Hok _ Hres) as [_ Hd].
  split; [| split].
  - rewrite Hq. apply composite_ids_NoDup; [| exact Hle].
    rewrite Hd. apply NoDup_seqZ.
  - apply composite_id_decode.
  - intros Hnd.
    change (composite_ids [(0, 257); (1, 1)])
      with (((fun i => Z.lor (Z.shiftl 0 8) i) <$> seqZ 0 257) ++ [256]) in Hnd.
    apply NoDup_app in Hnd as (_ & Hdisj & _).
    apply (Hdisj 256); [| left].
    apply list_elem_of_fmap. exists 256. split; [reflexivity |].
    apply elem_of_seqZ. lia.
Qed.

(** X15.  [get_probe_names] only ever issues the three enumeration calls
    (number of drivers, number of instances, instance name): it opens no
    probe, scans nothing and writes no register. *)
Theorem get_probe_names_only_enumerates s :
  Forall (fun c => is_enumeration_call c = true)
    (calls (trace_of (get_probe_names lib s)))
  /\ register_writes (trace_of (get_probe_names lib s)) = [].
Proof.
  assert (Forall (fun c => is_enumeration_call c = true)
            (calls (trace_of (get_probe_names lib s)))) as H.
  { rewrite get_probe_names_run.
    set (r := (lib s _).1). set (s1 := (lib s _).2).
    destruct (rv r <? 0); [repeat constructor |].
    pose proof (driver_loop_outcome (seqZ 0 (rv r)) ∅ s1) as H.
    cbv zeta in H. destruct H as (_ & _ & H).
    destruct (for_each _ _ (driver_body lib) s1) as [[res s2] t2].
    unfold trace_of in *. cbn [snd] in *. constructor; [reflexivity | exact H]. }
  split; [exact H |].
  unfold register_writes. induction H as [| c cs Hc _ IH]; [reflexivity |].
  cbn [List.filter]. destruct c; try discriminate; exact IH.
Qed.

End MoreEnumeration.

(** ** Opening a probe, scanning, state synonyms *)

Section Procedures.

Context {LibState : Type}.
Variable lib : LibState -> LibCall -> LibRet * LibState.
Implicit Types (s : LibState) (c : LibCall).

(** X16.  [open_probe] and [scan] each issue exactly one library call and
    raise exactly when the library's return value is negative; [scan]
    passes mode 1 when [write_only] is set and mode 0 otherwise, and
    [open_probe] passes the probe identifier unchanged. *)
Theorem open_probe_and_scan probeid (write_only : bool) s :
  let c1 := jtagcore_select_and_open_probe probeid in
  let c2 := jtagcore_push_and_pop_chain (if write_only then 1 else 0) in
  trace_of (open_probe lib probeid s) = [(c1, (lib s c1).1)]
  /\ state_of (open_probe lib probeid s) = (lib s c1).2
  /\ (result_of (open_probe lib probeid s) = Ok tt <-> 0 <= rv (lib s c1).1)
  /\ trace_of (scan lib write_only s) = [(c2, (lib s c2).1)]
  /\ state_of (scan lib write_only s) = (lib s c2).2
  /\ (result_of (scan lib write_only s) = Ok tt <-> 0 <= rv (lib s c2).1).
Proof.
  cbv zeta. unfold open_probe. rewrite scan_run, checked_call_run.
  unfold result_of, state_of, trace_of. cbn [fst snd].
  assert (forall code, outcome code = Ok tt <-> 0 <= code) as Hout.
  { intros code. unfold outcome. destruct (Z.ltb_spec code 0) as [Hlt | Hge];
      split; intros; (reflexivity || discriminate || lia). }
  repeat split; apply Hout.
Qed.

(** X17.  [pin_set_state] depends on its state argument only through the
    logical state it stands for: True, 1 and "high" give the same run, as
    do False, 0 and "low", and None, -1 and "high-z". *)
Theorem pin_set_state_synonyms device pinid state1 state2 (scan_now : bool) l s :
  logical_state state1 = Some l ->
  logical_state state2 = Some l ->
  pin_set_state lib device pinid state1 scan_now s
  = pin_set_state lib device pinid state2 scan_now s.
Proof.
  intros H1 H2.
  rewrite (pin_set_state_unfold lib _ _ _ _ l H1).
  rewrite (pin_set_state_unfold lib _ _ _ _ l H2). reflexivity.
Qed.

End Procedures.

(** ** Concrete runs of the further properties *)

Lemma check_return_cases_witness :
  result_of (_check_return (-5) ([] : list LibRet))
  = Raise (IOError [PyStr "Exception: JTAG_CORE_NO_PROBE"])
  /\ result_of (_check_return (-11) ([] : list LibRet)) = Raise (KeyError (-11))
  /\ result_of (_check_return 7 ([] : list LibRet)) = Ok tt.
Proof.
  split; [| split].
  - destruct (proj1 (proj2 (proj2 (proj2 (check_return_cases (-5) ([] : list LibRet)))))
                ltac:(lia)) as (name & Hn & Hr).
    cbn in Hn. injection Hn as <-. exact Hr.
  - apply (proj2 (proj2 (proj2 (proj2 (check_return_cases (-11) ([] : list LibRet)))))).
    lia.
  - apply (proj1 (proj2 (proj2 (check_return_cases 7 ([] : list LibRet))))). lia.
Defined.

Lemma error_codes_table_witness :
  is_Some (error_codes (-10)) /\ ~ is_Some (error_codes (-11)).
Proof.
  split.
  - apply (proj1 error_codes_table (-10)). lia.
  - intros H. apply (proj1 error_codes_table (-11)) in H. lia.
Defined.

Lemma accessors_return_checked_value_witness :
  checked_value (ret_code 5) = Ok 5
  /\ get_devid replay 0 [ret_code 5] = (Ok 5, [], [(jtagcore_get_dev_id 0, ret_code 5)])
  /\ 0 <= 5.
Proof.
  pose proof (accessors_return_checked_value replay 0 (Str "PA9") [ret_code 5])
    as (_ & _ & Hdev & _ & _ & Hnn).
  split; [reflexivity |]. split; [exact Hdev |].
  exact (proj2 (Hnn (ret_code 5) 5 eq_refl)).
Defined.

Lemma bsdl_existing_path_witness :
  any_file "bsdl_files/CortexMx.bsd" = true
  /\ bsdl_devid replay any_file "bsdl_files/CortexMx.bsd" [ret_code 1268778103]
     = (Ok 1268778103, [],
        [(jtagcore_get_bsdl_id "bsdl_files/CortexMx.bsd", ret_code 1268778103)]).
Proof.
  split; [reflexivity |].
  exact (proj2 (bsdl_existing_path replay any_file "bsdl_files/CortexMx.bsd" 1
                  [ret_code 1268778103] eq_refl)).
Defined.

Lemma pin_get_properties_decodes_witness :
  0 <= rv (mkRet 0 "PA9" 6)
  /\ pin_get_properties replay 1 (PinNum 0) [mkRet 0 "PA9" 6]
     = (Ok ("PA9"%string, ["output"; "oe"]%string), [],
        [(jtagcore_get_pin_properties 1 0 500, mkRet 0 "PA9" 6)]).
Proof.
  assert (0 <= rv (mkRet 0 "PA9" 6)) as H by (cbn; lia).
  split; [exact H |].
  exact (pin_get_properties_decodes replay 1 0 [mkRet 0 "PA9" 6] H).
Defined.

Lemma pin_get_properties_errors_witness :
  rv (ret_code (-1)) < 0
  /\ pin_get_properties replay 1 (PinNum 99) [ret_code (-1)]
     = (Raise (IOError [PyStr "Exception: JTAG_CORE_BAD_PARAMETER"]), [],
        [(jtagcore_get_pin_properties 1 99 500, ret_code (-1))]).
Proof.
  assert (rv (ret_code (-1)) < 0) as H by (cbn; lia).
  split; [exact H |].
  exact (proj2 (pin_get_properties_errors replay 1 [ret_code (-1)]) 99 H).
Defined.

Lemma pin_set_state_invalid_state_witness :
  (PyStr "HIGH" ∉ accepted_states)
  /\ pin_set_state replay 1 (PinNum 3) (PyStr "HIGH") true [ret_code 0]
     = (Raise (ValueError [PyStr "Invalid state"; PyStr "HIGH"]), [ret_code 0], []).
Proof.
  assert (PyStr "HIGH" ∉ accepted_states) as H.
  { unfold accepted_states.
    repeat (apply not_elem_of_cons; split; [discriminate |]). apply not_elem_of_nil. }
  split; [exact H |].
  exact (proj1 (pin_set_state_invalid_state replay 1 (PinNum 3) (PyStr "HIGH") true
                  [ret_code 0] H)).
Defined.

Lemma pin_set_state_then_scan_witness :
  logical_state (PyInt 0) = Some Low
  /\ pin_set_state replay 1 (PinNum 3) (PyInt 0) true
       [ret_code 0; ret_code 0; ret_code (-5)]
     = (Raise (IOError [PyStr "Exception: JTAG_CORE_NO_PROBE"]), [],
        [(jtagcore_set_pin_state 1 3 OE 1, ret_code 0);
         (jtagcore_set_pin_state 1 3 OUTPUT 0, ret_code 0);
         (jtagcore_push_and_pop_chain 0, ret_code (-5))]).
Proof.
  split; [reflexivity |].
  apply (pin_set_state_then_scan replay 1 (PinNum 3) (PyInt 0) true Low
           [ret_code 0; ret_code 0; ret_code (-5)] 3
           [ret_code 0; ret_code 0; ret_code (-5)] [] eq_refl eq_refl); cbn; lia.
Defined.

Lemma set_scan_mode_then_scan_witness :
  0 <= rv (ret_code 0)
  /\ set_scan_mode replay 1 (PyStr "active") true [ret_code 0; ret_code 0]
     = (Ok tt, [],
        [(jtagcore_set_scan_mode 1 (PyInt 1), ret_code 0);
         (jtagcore_push_and_pop_chain 0, ret_code 0)]).
Proof.
  assert (0 <= rv (ret_code 0)) as H by (cbn; lia).
  split; [exact H |].
  exact (proj1 (proj2 (proj2 (set_scan_mode_then_scan replay 1 (PyStr "active") true
                                [ret_code 0; ret_code 0]))) H eq_refl).
Defined.

Lemma get_probe_names_outcome_witness :
  rv (ret_code 0) = 0
  /\ get_probe_names replay [ret_code 0]
     = (Ok ∅, [], [(jtagcore_get_number_of_probes_drv, ret_code 0)]).
Proof.
  split; [reflexivity |].
  exact (proj2 (proj2 (get_probe_names_outcome replay [ret_code 0])) eq_refl).
Defined.

Lemma get_probe_names_distinct_names_witness :
  result_of (get_probe_names replay
               [ret_code 1; ret_code 2; mkRet 0 "USB JLINK ARM" 0; mkRet 0 "FTDI" 0])
  = Ok {[ "USB JLINK ARM"%string := 0; "FTDI"%string := 1 ]}
  /\ size ({[ "USB JLINK ARM"%string := 0; "FTDI"%string := 1 ]} : gmap string Z)
     = 2%nat.
Proof.
  assert (result_of (get_probe_names replay
               [ret_code 1; ret_code 2; mkRet 0 "USB JLINK ARM" 0; mkRet 0 "FTDI" 0])
          = Ok {[ "USB JLINK ARM"%string := 0; "FTDI"%string := 1 ]}) as Hres
    by (vm_compute; reflexivity).
  split; [exact Hres |].
  apply (get_probe_names_distinct_names replay _ _ Hres).
  apply (bool_decide_unpack _). vm_compute. exact I.
Defined.

Lemma get_probe_names_ids_distinct_witness :
  result_of (get_probe_names replay
               [ret_code 2; ret_code 1; mkRet 0 "A" 0; ret_code 2; mkRet 0 "B" 0;
                mkRet 0 "C" 0])
  = Ok {[ "A"%string := 0; "B"%string := 256; "C"%string := 257 ]}
  /\ NoDup [0; 256; 257].
Proof.
  assert (result_of (get_probe_names replay
               [ret_code 2; ret_code 1; mkRet 0 "A" 0; ret_code 2; mkRet 0 "B" 0;
                mkRet 0 "C" 0])
          = Ok {[ "A"%string := 0; "B"%string := 256; "C"%string := 257 ]}) as Hres
    by (vm_compute; reflexivity).
  split; [exact Hres |].
  apply (get_probe_names_ids_distinct replay _ _ Hres).
  repeat constructor; cbn; lia.
Defined.

Lemma pin_set_state_synonyms_witness :
  logical_state PyNone = Some HighZ
  /\ logical_state (PyStr "high-z") = Some HighZ
  /\ pin_set_state replay 1 (PinNum 3) PyNone false [ret_code 0; ret_code 0]
     = pin_set_state replay 1 (PinNum 3) (PyStr "high-z") false [ret_code 0; ret_code 0].
Proof.
  split; [reflexivity |]. split; [reflexivity |].
  exact (pin_set_state_synonyms replay 1 (PinNum 3) PyNone (PyStr "high-z") false HighZ
           [ret_code 0; ret_code 0] eq_refl eq_refl).
Defined.

Lemma open_probe_and_scan_witness :
  0 <= rv (ret_code 0)
  /\ result_of (open_probe replay 1 [ret_code 0]) = Ok tt.
Proof.
  assert (0 <= rv (ret_code 0)) as H by (cbn; lia).
  split; [exact H |].
  exact (proj2 (proj1 (proj2 (proj2 (open_probe_and_scan replay 1 false [ret_code 0])))) H).
Defined.
